(** * Overlay registry and bearing geometry of the Leaflet wrappers

    A shallow embedding of the three JavaScript modules of the repository:

    - [Crimes]   : the investigation helpers of [leafletCrimesWrapper.js]
                   (bearing and midpoint geometry);
    - [Wrapper]  : [leafletWrapper.js], the wrapper with switchable base layers;
    - [Registry] : the wrapper that tracks the overlays it creates in
                   [markers], [circles], [polygons], [polylines] and
                   [geoJsonLayers], and that can be disposed.

    The mapping widget (Leaflet) is an external collaborator; [Leaflet] holds
    the small part of its behaviour the wrappers rely on. *)

From Stdlib Require Import Reals Lra Lia ZArith List String Ascii Bool Arith.
From Stdlib Require Import PrimFloat.
Import ListNotations.
Set Warnings "-register-all,-inexact-float".

(** ** Real-number reading of the [Math] functions used by the bearing code *)

Module JsMath.
Local Open Scope R_scope.




End JsMath.

(** ** [leafletCrimesWrapper.js]: bearing and midpoint *)

Module Crimes.
Local Open Scope R_scope.



End Crimes.

(** ** JavaScript values and the coercions the wrappers exercise *)

Module Js.

(** Values that cross the host bridge.  Numbers are IEEE doubles; arrays and
    objects carry the reference that [===] compares; an object lists its own
    enumerable properties in the order [for ... in] visits them. *)
Inductive value : Type :=
  | VUndefined
  | VNull
  | VBool (b : bool)
  | VNum (n : float)
  | VStr (s : string)
  | VArr (ref : nat) (items : list value)
  | VObj (ref : nat) (props : list (string * value)).

Inductive error : Type :=
  | TypeError (msg : string)
  | Error (msg : string).

(** Outcome of a call: a returned value or a thrown exception. *)
Inductive outcome (A : Type) : Type :=
  | Returned (a : A)
  | Thrown (e : error).
Arguments Returned {A} a.
Arguments Thrown {A} e.

Inductive log : Type :=
  | ConsoleWarn (msg : string)
  | ConsoleError (msg : string).

(** The two conversions between numbers and text belong to the language
    runtime; the model takes them as given. *)
Class Runtime : Type := {
  StringToNumber : string -> float;
  NumberToString : float -> string
}.

(** ToBoolean *)
Definition truthy (v : value) : bool :=
  match v with
  | VUndefined | VNull => false
  | VBool b => b
  | VNum n => negb (PrimFloat.eqb n 0%float || PrimFloat.is_nan n)
  | VStr s => negb (String.eqb s "")
  | VArr _ _ | VObj _ _ => true
  end.

(** [a === b] *)
Definition strict_equals (a b : value) : bool :=
  match a, b with
  | VUndefined, VUndefined => true
  | VNull, VNull => true
  | VBool x, VBool y => Bool.eqb x y
  | VNum x, VNum y => PrimFloat.eqb x y
  | VStr x, VStr y => String.eqb x y
  | VArr r _, VArr r' _ => Nat.eqb r r'
  | VObj r _, VObj r' _ => Nat.eqb r r'
  | _, _ => false
  end.

Definition isArray (v : value) : bool :=
  match v with VArr _ _ => true | _ => false end.

Fixpoint lookup (k : string) (props : list (string * value)) : value :=
  match props with
  | [] => VUndefined
  | (k', v) :: rest => if String.eqb k k' then v else lookup k rest
  end.

Fixpoint nat_to_float (n : nat) : float :=
  match n with
  | 0 => 0%float
  | S n' => PrimFloat.add (nat_to_float n') 1%float
  end.

(** [v.length] for a value that is neither [undefined] nor [null]. *)
Definition get_length (v : value) : value :=
  match v with
  | VArr _ items => VNum (nat_to_float (List.length items))
  | VStr s => VNum (nat_to_float (String.length s))
  | VObj _ props => lookup "length" props
  | _ => VUndefined
  end.

Definition index_key (i : nat) : string :=
  match i with
  | 0 => "0"
  | 1 => "1"
  | _ => "2"
  end.

(** [v[i]] for [i] in 0..1 on a value that is neither [undefined] nor
    [null]. *)
Definition get_index (v : value) (i : nat) : value :=
  match v with
  | VArr _ items => nth i items VUndefined
  | VStr s => match String.get i s with
              | Some c => VStr (String c EmptyString)
              | None => VUndefined
              end
  | VObj _ props => lookup (index_key i) props
  | _ => VUndefined
  end.

Section Coercions.
Context {rt : Runtime}.

(** ToString; inside [Array.prototype.join] the elements [undefined] and
    [null] print as the empty string. *)
Fixpoint ToString (v : value) : string :=
  match v with
  | VUndefined => "undefined"
  | VNull => "null"
  | VBool true => "true"
  | VBool false => "false"
  | VNum n => NumberToString n
  | VStr s => s
  | VArr _ items =>
      (fix join (l : list value) : string :=
         match l with
         | [] => ""
         | x :: rest =>
             let head := match x with
                         | VUndefined | VNull => ""
                         | _ => ToString x
                         end in
             match rest with
             | [] => head
             | _ :: _ => head ++ "," ++ join rest
             end
         end) items
  | VObj _ _ => "[object Object]"
  end%string.

(** ToPrimitive: arrays and plain objects turn into their text. *)
Definition ToPrimitive (v : value) : value :=
  match v with
  | VArr _ _ | VObj _ _ => VStr (ToString v)
  | _ => v
  end.

(** ToNumber *)
Definition ToNumber (v : value) : float :=
  match ToPrimitive v with
  | VUndefined => PrimFloat.nan
  | VNull => 0%float
  | VBool true => 1%float
  | VBool false => 0%float
  | VNum n => n
  | VStr s => StringToNumber s
  | VArr _ _ | VObj _ _ => PrimFloat.nan
  end.

(** The global [isNaN(v)] *)
Definition isNaN (v : value) : bool := PrimFloat.is_nan (ToNumber v).

(** [a + b] *)
Definition js_add (a b : value) : value :=
  let pa := ToPrimitive a in
  let pb := ToPrimitive b in
  match pa, pb with
  | VStr _, _ | _, VStr _ => VStr (ToString pa ++ ToString pb)
  | _, _ => VNum (PrimFloat.add (ToNumber pa) (ToNumber pb))
  end.

(** [a / b] *)
Definition js_div (a b : value) : value :=
  VNum (PrimFloat.div (ToNumber a) (ToNumber b)).

End Coercions.

(** *** [String.prototype.replace] with a string pattern *)

Fixpoint starts_with (pat s : string) : bool :=
  match pat, s with
  | EmptyString, _ => true
  | String _ _, EmptyString => false
  | String a pat', String b s' => Ascii.eqb a b && starts_with pat' s'
  end.

Fixpoint drop (n : nat) (s : string) : string :=
  match n, s with
  | 0, _ => s
  | S _, EmptyString => EmptyString
  | S n', String _ s' => drop n' s'
  end.

(** The text before and after the first occurrence of [pat] in [s]. *)
Fixpoint split_first (pat s : string) : option (string * string) :=
  if starts_with pat s then Some (EmptyString, drop (String.length pat) s)
  else match s with
       | EmptyString => None
       | String c s' =>
           match split_first pat s' with
           | Some (before, after) => Some (String c before, after)
           | None => None
           end
       end.

(** GetSubstitution for a match without capture groups: [$$] is a dollar
    sign, [$&] the matched text, [$`] the text before the match, [$'] the
    text after it; every other character stands for itself. *)
Fixpoint GetSubstitution (matched before after replacement : string) : string :=
  match replacement with
  | EmptyString => EmptyString
  | String c rest =>
      match rest with
      | String d rest' =>
          if Ascii.eqb c "$" then
            if Ascii.eqb d "$" then
              String "$" (GetSubstitution matched before after rest')
            else if Ascii.eqb d "&" then
              matched ++ GetSubstitution matched before after rest'
            else if Ascii.eqb d "`" then
              before ++ GetSubstitution matched before after rest'
            else if Ascii.eqb d "'" then
              after ++ GetSubstitution matched before after rest'
            else String c (GetSubstitution matched before after rest)
          else String c (GetSubstitution matched before after rest)
      | EmptyString => String c EmptyString
      end
  end%string.

(** [s.replace(pat, replacement)] for strings [pat] and [replacement]: only
    the first occurrence of [pat] is replaced. *)
Definition replace (s pat replacement : string) : string :=
  match split_first pat s with
  | Some (before, after) =>
      (before ++ GetSubstitution pat before after replacement ++ after)%string
  | None => s
  end.

End Js.

(** ** The mapping widget, as far as the wrappers use it *)

Module Leaflet.
Import Js.

Inductive kind : Type :=
  | TileLayer | Marker | Circle | Polygon | Polyline | Rectangle
  | GeoJSON | FeatureGroup.

(** A layer object.  [lid] is the identity the widget stamps on it, [lurl]
    the [_url] field that only tile layers have, [lmembers] the layers a
    group holds (by reference). *)
Record layer : Type := {
  lid : nat;
  lkind : kind;
  lurl : option string;
  lgeom : list value;
  lopts : value;
  lpopup : option value;
  lmembers : list nat
}.

Inductive control_kind : Type := DrawControl | MiniMapControl | LayersControl.

Record control : Type := {
  cid : nat;
  ckind : control_kind;
  cconfig : list (string * value);
  cgroup : option nat;      (* edit.featureGroup of a draw control *)
  cminimized : bool
}.

Inductive event : Type := DrawCreated | Click.

Definition event_eqb (a b : event) : bool :=
  match a, b with
  | DrawCreated, DrawCreated | Click, Click => true
  | _, _ => false
  end.

(** The listeners the wrappers register: the draw listener adds the finished
    layer to whatever [drawnItems] refers to when it runs; the click listener
    forwards the position to the host. *)
Inductive handler : Type :=
  | AddToDrawnItems
  | InvokeHost (dotNetReference : nat) (method : string).

Inductive view : Type :=
  | ViewAt (lat lng zoom : value)
  | Fitted (bounds : value) (padding : option (nat * nat)).

(** A map widget.  [layers] and [controls] hold the identities of what was
    added to the map itself; a group on the map stands for its members. *)
Record widget : Type := {
  container : string;
  layers : list nat;
  controls : list nat;
  handlers : list (event * handler);
  current_view : option view
}.

(** The page around the wrappers: the objects created so far, the next
    identity, the elements of the document, the containers that hold a map,
    and which plugins are loaded. *)
Record page : Type := {
  heap : list layer;
  next : nat;
  elements : list string;
  occupied : list string;
  drawLoaded : bool;
  miniMapLoaded : bool
}.

Definition mem (i : nat) (l : list nat) : bool := existsb (Nat.eqb i) l.
Definition add_id (i : nat) (l : list nat) : list nat :=
  if mem i l then l else l ++ [i].
Definition remove_id (i : nat) (l : list nat) : list nat :=
  filter (fun j => negb (Nat.eqb j i)) l.

Definition mem_string (x : string) (l : list string) : bool :=
  existsb (String.eqb x) l.

Fixpoint find_layer (i : nat) (h : list layer) : option layer :=
  match h with
  | [] => None
  | l :: rest => if Nat.eqb (lid l) i then Some l else find_layer i rest
  end.

Fixpoint update_layer (i : nat) (f : layer -> layer) (h : list layer)
  : list layer :=
  match h with
  | [] => []
  | l :: rest =>
      if Nat.eqb (lid l) i then f l :: rest else l :: update_layer i f rest
  end.

Definition set_heap (p : page) (h : list layer) (n : nat) : page :=
  {| heap := h; next := n; elements := elements p; occupied := occupied p;
     drawLoaded := drawLoaded p; miniMapLoaded := miniMapLoaded p |}.

Definition set_occupied (p : page) (o : list string) : page :=
  {| heap := heap p; next := next p; elements := elements p; occupied := o;
     drawLoaded := drawLoaded p; miniMapLoaded := miniMapLoaded p |}.

(** Creating a layer object: it gets the next identity. *)
Definition new_layer (p : page) (k : kind) (url : option string)
    (geom : list value) (opts : value) (members : list nat) : nat * page :=
  let l := {| lid := next p; lkind := k; lurl := url; lgeom := geom;
              lopts := opts; lpopup := None; lmembers := members |} in
  (next p, set_heap p (heap p ++ [l]) (S (next p))).

Definition fresh (p : page) : nat * page :=
  (next p, set_heap p (heap p) (S (next p))).

(** [layer.bindPopup(content)] *)
Definition bindPopup (p : page) (i : nat) (content : value) : page :=
  set_heap p
    (update_layer i
       (fun l => {| lid := lid l; lkind := lkind l; lurl := lurl l;
                    lgeom := lgeom l; lopts := lopts l;
                    lpopup := Some content; lmembers := lmembers l |})
       (heap p))
    (next p).

Definition with_members (f : list nat -> list nat) (l : layer) : layer :=
  {| lid := lid l; lkind := lkind l; lurl := lurl l; lgeom := lgeom l;
     lopts := lopts l; lpopup := lpopup l; lmembers := f (lmembers l) |}.

Definition set_members (p : page) (g : nat) (f : list nat -> list nat) : page :=
  set_heap p (update_layer g (with_members f) (heap p)) (next p).

(** The layers the group [g] holds. *)
Definition members (p : page) (g : nat) : list nat :=
  match find_layer g (heap p) with
  | Some l => lmembers l
  | None => []
  end.

(** [group.addLayer(layer)]: a layer the group already holds is not added
    again. *)
Definition group_addLayer (p : page) (g i : nat) : page :=
  set_members p g (add_id i).

(** [group.clearLayers()] *)
Definition group_clearLayers (p : page) (g : nat) : page :=
  set_members p g (fun _ => []).

Definition set_layers (m : widget) (ls : list nat) : widget :=
  {| container := container m; layers := ls; controls := controls m;
     handlers := handlers m; current_view := current_view m |}.

Definition set_controls (m : widget) (cs : list nat) : widget :=
  {| container := container m; layers := layers m; controls := cs;
     handlers := handlers m; current_view := current_view m |}.

Definition set_handlers (m : widget) (hs : list (event * handler)) : widget :=
  {| container := container m; layers := layers m; controls := controls m;
     handlers := hs; current_view := current_view m |}.

Definition set_view (m : widget) (v : view) : widget :=
  {| container := container m; layers := layers m; controls := controls m;
     handlers := handlers m; current_view := Some v |}.

(** [map.addLayer(layer)] / [layer.addTo(map)]: no effect when the layer is
    on the map already. *)
Definition addLayer (m : widget) (i : nat) : widget :=
  set_layers m (add_id i (layers m)).

(** [map.removeLayer(layer)]: no effect when the layer is not on the map. *)
Definition removeLayer (m : widget) (i : nat) : widget :=
  set_layers m (remove_id i (layers m)).

(** [map.addControl(control)] / [control.addTo(map)]: the control is taken
    off first, so it is on the map once. *)
Definition addControl (m : widget) (c : nat) : widget :=
  set_controls m (remove_id c (controls m) ++ [c]).

(** [map.removeControl(control)] / [control.remove()] *)
Definition removeControl (m : widget) (c : nat) : widget :=
  set_controls m (remove_id c (controls m)).

(** [map.on(type, fn)]: one more listener for [type]. *)
Definition on (m : widget) (e : event) (h : handler) : widget :=
  set_handlers m (handlers m ++ [(e, h)]).

(** [map.off(type)]: every listener for [type] is dropped. *)
Definition off (m : widget) (e : event) : widget :=
  set_handlers m (filter (fun eh => negb (event_eqb (fst eh) e)) (handlers m)).

(** The listeners that run when [e] fires. *)
Definition listeners (m : widget) (e : event) : list handler :=
  List.map snd (filter (fun eh => event_eqb (fst eh) e) (handlers m)).

(** [L.map(elementId)]: fails when the document has no such element or the
    element already holds a map. *)
Definition new_map (p : page) (elementId : string) : outcome (widget * page) :=
  if negb (mem_string elementId (elements p)) then
    Thrown (Error "Map container not found.")
  else if mem_string elementId (occupied p) then
    Thrown (Error "Map container is already initialized.")
  else
    Returned ({| container := elementId; layers := []; controls := [];
                 handlers := []; current_view := None |},
              set_occupied p (elementId :: occupied p)).

(** [map.remove()]: the container is free again. *)
Definition remove_map (p : page) (m : widget) : page :=
  set_occupied p
    (filter (fun c => negb (String.eqb c (container m))) (occupied p)).

(** *** Geographic interchange data *)

Inductive geometry : Type := Point | LineString | PolygonGeometry.

Record feature : Type := {
  ftype : geometry;
  fcoords : list value;
  fproperties : option (list (string * value))
}.

Inductive geojson : Type :=
  | FeatureCollection (features : list feature)
  | Feature (f : feature).

Definition features_of (g : geojson) : list feature :=
  match g with
  | FeatureCollection fs => fs
  | Feature f => [f]
  end.

Definition geometry_of (k : kind) : geometry :=
  match k with
  | Marker | Circle => Point
  | Polyline => LineString
  | _ => PolygonGeometry
  end.

Definition kind_of (g : geometry) : kind :=
  match g with
  | Point => Marker
  | LineString => Polyline
  | PolygonGeometry => Polygon
  end.

(** [layer.toGeoJSON()] of a single shape. *)
Definition layer_toGeoJSON (l : layer) : feature :=
  {| ftype := geometry_of (lkind l); fcoords := lgeom l;
     fproperties := Some [] |}.

(** [group.toGeoJSON()]: one feature for each member. *)
Definition group_toGeoJSON (p : page) (g : nat) : geojson :=
  FeatureCollection
    (flat_map (fun i => match find_layer i (heap p) with
                        | Some l => [layer_toGeoJSON l]
                        | None => []
                        end)
       (members p g)).

(** [L.geoJSON(data, { onEachFeature })]: a group with one new layer for
    each feature; [onEachFeature] runs on every feature and its layer before
    the layer joins the group, and an exception it throws ends the
    construction. *)
Fixpoint geoJSON_members (p : page) (fs : list feature)
    (onEachFeature : feature -> nat -> page -> outcome page)
  : outcome (list nat * page) :=
  match fs with
  | [] => Returned ([], p)
  | f :: rest =>
      let (i, p1) := new_layer p (kind_of (ftype f)) None (fcoords f)
                       VUndefined [] in
      match onEachFeature f i p1 with
      | Thrown e => Thrown e
      | Returned p2 =>
          match geoJSON_members p2 rest onEachFeature with
          | Thrown e => Thrown e
          | Returned (ids, p3) => Returned (i :: ids, p3)
          end
      end
  end.

Definition geoJSON (p : page) (data : geojson) (opts : value)
    (onEachFeature : feature -> nat -> page -> outcome page)
  : outcome (nat * page) :=
  match geoJSON_members p (features_of data) onEachFeature with
  | Thrown e => Thrown e
  | Returned (ids, p1) => Returned (new_layer p1 GeoJSON None [] opts ids)
  end.

Definition no_callback (_ : feature) (_ : nat) (p : page) : outcome page :=
  Returned p.

(** Every object of the page was stamped before [next]. *)
Definition ids_below (n : nat) (h : list layer) : Prop :=
  Forall (fun l => lid l < n) h.


(** What a wrapper call hands back to the host: nothing, [null], the map, a
    reference to a layer, or the JSON text of interchange data (kept as the
    data it encodes). *)
Inductive ret : Type :=
  | RetUndefined
  | RetNull
  | RetMap
  | RetHandle (i : nat)
  | RetText (data : geojson).

End Leaflet.

(** ** The wrapper that tracks its overlays *)

Module Registry.
Import Js Leaflet.

(** The module-level variables, and the page they live in. *)
Record state : Type := {
  page : Leaflet.page;
  map : option Leaflet.widget;
  markers : list nat;
  circles : list nat;
  polygons : list nat;
  polylines : list nat;
  geoJsonLayers : list nat;
  drawnItems : option nat;
  drawControl : option Leaflet.control;
  miniMapControl : option Leaflet.control;
  isDisposed : bool
}.

Definition result : Type := outcome ret * state * list log.

Definition set_page (s : state) (x : Leaflet.page) : state :=
  {| page := x; map := map s; markers := markers s; circles := circles s;
     polygons := polygons s; polylines := polylines s; geoJsonLayers :=
     geoJsonLayers s; drawnItems := drawnItems s; drawControl :=
     drawControl s; miniMapControl := miniMapControl s; isDisposed :=
     isDisposed s |}.

Definition set_map (s : state) (x : option Leaflet.widget) : state :=
  {| page := page s; map := x; markers := markers s; circles := circles s;
     polygons := polygons s; polylines := polylines s; geoJsonLayers :=
     geoJsonLayers s; drawnItems := drawnItems s; drawControl :=
     drawControl s; miniMapControl := miniMapControl s; isDisposed :=
     isDisposed s |}.

Definition set_markers (s : state) (x : list nat) : state :=
  {| page := page s; map := map s; markers := x; circles := circles s;
     polygons := polygons s; polylines := polylines s; geoJsonLayers :=
     geoJsonLayers s; drawnItems := drawnItems s; drawControl :=
     drawControl s; miniMapControl := miniMapControl s; isDisposed :=
     isDisposed s |}.

Definition set_circles (s : state) (x : list nat) : state :=
  {| page := page s; map := map s; markers := markers s; circles := x;
     polygons := polygons s; polylines := polylines s; geoJsonLayers :=
     geoJsonLayers s; drawnItems := drawnItems s; drawControl :=
     drawControl s; miniMapControl := miniMapControl s; isDisposed :=
     isDisposed s |}.

Definition set_polygons (s : state) (x : list nat) : state :=
  {| page := page s; map := map s; markers := markers s; circles :=
     circles s; polygons := x; polylines := polylines s; geoJsonLayers :=
     geoJsonLayers s; drawnItems := drawnItems s; drawControl :=
     drawControl s; miniMapControl := miniMapControl s; isDisposed :=
     isDisposed s |}.

Definition set_polylines (s : state) (x : list nat) : state :=
  {| page := page s; map := map s; markers := markers s; circles :=
     circles s; polygons := polygons s; polylines := x; geoJsonLayers :=
     geoJsonLayers s; drawnItems := drawnItems s; drawControl :=
     drawControl s; miniMapControl := miniMapControl s; isDisposed :=
     isDisposed s |}.

Definition set_geoJsonLayers (s : state) (x : list nat) : state :=
  {| page := page s; map := map s; markers := markers s; circles :=
     circles s; polygons := polygons s; polylines := polylines s;
     geoJsonLayers := x; drawnItems := drawnItems s; drawControl :=
     drawControl s; miniMapControl := miniMapControl s; isDisposed :=
     isDisposed s |}.

Definition set_drawnItems (s : state) (x : option nat) : state :=
  {| page := page s; map := map s; markers := markers s; circles :=
     circles s; polygons := polygons s; polylines := polylines s;
     geoJsonLayers := geoJsonLayers s; drawnItems := x; drawControl :=
     drawControl s; miniMapControl := miniMapControl s; isDisposed :=
     isDisposed s |}.

Definition set_drawControl (s : state) (x : option Leaflet.control) : state :=
  {| page := page s; map := map s; markers := markers s; circles :=
     circles s; polygons := polygons s; polylines := polylines s;
     geoJsonLayers := geoJsonLayers s; drawnItems := drawnItems s;
     drawControl := x; miniMapControl := miniMapControl s; isDisposed :=
     isDisposed s |}.

Definition set_miniMapControl (s : state) (x : option Leaflet.control) : state :=
  {| page := page s; map := map s; markers := markers s; circles :=
     circles s; polygons := polygons s; polylines := polylines s;
     geoJsonLayers := geoJsonLayers s; drawnItems := drawnItems s;
     drawControl := drawControl s; miniMapControl := x; isDisposed :=
     isDisposed s |}.

Definition set_isDisposed (s : state) (x : bool) : state :=
  {| page := page s; map := map s; markers := markers s; circles :=
     circles s; polygons := polygons s; polylines := polylines s;
     geoJsonLayers := geoJsonLayers s; drawnItems := drawnItems s;
     drawControl := drawControl s; miniMapControl := miniMapControl s;
     isDisposed := x |}.

(** The state when the module is loaded. *)
Definition initial (p : Leaflet.page) : state :=
  {| page := p; map := None; markers := []; circles := []; polygons := [];
     polylines := []; geoJsonLayers := []; drawnItems := None;
     drawControl := None; miniMapControl := None; isDisposed := false |}.

Definition osm_url : string :=
  "https://{s}.tile.openstreetmap.org/{z}/{x}/{y}.png".

(** [createMap(elementId, lat, lng, zoom)] *)
Definition createMap (elementId : string) (lat lng zoom : value) (s : state)
  : result :=
  if isDisposed s then
    (Returned RetUndefined, s,
     [ConsoleWarn "Map wrapper is disposed, cannot create map"])
  else
    let s1 := match map s with
              | Some m => set_page s (remove_map (page s) m)
              | None => s
              end in
    match new_map (page s1) elementId with
    | Thrown _ => (Returned RetNull, s1, [ConsoleError "Error creating map:"])
    | Returned (m, p1) =>
        let m1 := set_view m (ViewAt lat lng zoom) in
        let (tile, p2) := new_layer p1 TileLayer (Some osm_url) []
                            VUndefined [] in
        (Returned RetMap,
         set_map (set_page s1 p2) (Some (addLayer m1 tile)), [])
    end.

(** [addMarker(lat, lng, popupText = null)] *)
Definition addMarker (lat lng popupText : value) (s : state) : result :=
  match map s with
  | None => (Returned RetUndefined, s, [])
  | Some m =>
      let (marker, p1) := new_layer (page s) Marker None [lat; lng]
                            VUndefined [] in
      let m1 := addLayer m marker in
      let p2 := if truthy popupText then bindPopup p1 marker popupText
                else p1 in
      (Returned (RetHandle marker),
       set_markers (set_map (set_page s p2) (Some m1)) (markers s ++ [marker]),
       [])
  end.

(** [addCircle(lat, lng, radius, options = {})] *)
Definition addCircle (lat lng radius options : value) (s : state) : result :=
  match map s with
  | None => (Returned RetUndefined, s, [])
  | Some m =>
      let (circle, p1) := new_layer (page s) Circle None [lat; lng; radius]
                            options [] in
      (Returned (RetHandle circle),
       set_circles (set_map (set_page s p1) (Some (addLayer m circle)))
         (circles s ++ [circle]),
       [])
  end.

(** [addPolygon(latLngs, options = {})] *)
Definition addPolygon (latLngs options : value) (s : state) : result :=
  match map s with
  | None => (Returned RetUndefined, s, [])
  | Some m =>
      let (polygon, p1) := new_layer (page s) Polygon None [latLngs]
                             options [] in
      (Returned (RetHandle polygon),
       set_polygons (set_map (set_page s p1) (Some (addLayer m polygon)))
         (polygons s ++ [polygon]),
       [])
  end.

(** [addPolyline(latLngs, options = {})] *)
Definition addPolyline (latLngs options : value) (s : state) : result :=
  match map s with
  | None => (Returned RetUndefined, s, [])
  | Some m =>
      let (polyline, p1) := new_layer (page s) Polyline None [latLngs]
                              options [] in
      (Returned (RetHandle polyline),
       set_polylines (set_map (set_page s p1) (Some (addLayer m polyline)))
         (polylines s ++ [polyline]),
       [])
  end.

(** [addGeoJson(geoJson, options = {})] *)
Definition addGeoJson (geoJson : geojson) (options : value) (s : state)
  : result :=
  match map s with
  | None => (Returned RetUndefined, s, [])
  | Some m =>
      match geoJSON (page s) geoJson options no_callback with
      | Thrown e => (Thrown e, s, [])
      | Returned (layer, p1) =>
          (Returned (RetHandle layer),
           set_geoJsonLayers (set_map (set_page s p1) (Some (addLayer m layer)))
             (geoJsonLayers s ++ [layer]),
           [])
      end
  end.

Section WithRuntime.
Context {rt : Runtime}.

(** The popup text of [addGeoJsonWithPopup]: one line for each property. *)
Definition property_lines (props : list (string * value)) : string :=
  (fold_left
     (fun popupContent kv =>
        popupContent ++ "<strong>" ++ fst kv ++ ":</strong> "
          ++ ToString (snd kv) ++ "<br/>")
     props "<div>" ++ "</div>")%string.

Definition bind_property_popup (f : feature) (i : nat) (p : Leaflet.page)
  : outcome Leaflet.page :=
  match fproperties f with
  | Some props => Returned (bindPopup p i (VStr (property_lines props)))
  | None => Returned p
  end.

(** [addGeoJsonWithPopup(geoJson, options = {})] *)
Definition addGeoJsonWithPopup (geoJson : geojson) (options : value)
    (s : state) : result :=
  match map s with
  | None => (Returned RetUndefined, s, [])
  | Some m =>
      match geoJSON (page s) geoJson options bind_property_popup with
      | Thrown e => (Thrown e, s, [])
      | Returned (layer, p1) =>
          (Returned (RetHandle layer),
           set_geoJsonLayers (set_map (set_page s p1) (Some (addLayer m layer)))
             (geoJsonLayers s ++ [layer]),
           [])
      end
  end.

End WithRuntime.

(** [list.forEach(x => map.removeLayer(x))] *)
Definition removeEach (m : widget) (l : list nat) : widget :=
  fold_left removeLayer l m.

(** [clearMap()] *)
Definition clearMap (s : state) : result :=
  match map s with
  | None => (Returned RetUndefined, s, [])
  | Some m =>
      let m1 := removeEach m (markers s) in
      let m2 := removeEach m1 (circles s) in
      let m3 := removeEach m2 (polygons s) in
      let m4 := removeEach m3 (polylines s) in
      let m5 := removeEach m4 (geoJsonLayers s) in
      (Returned RetUndefined,
       set_geoJsonLayers
         (set_polylines
            (set_polygons
               (set_circles (set_markers (set_map s (Some m5)) []) []) []) [])
         [],
       [])
  end.

(** [setView(lat, lng, zoom)] *)
Definition setView (lat lng zoom : value) (s : state) : result :=
  match map s with
  | None => (Returned RetUndefined, s, [])
  | Some m =>
      (Returned RetUndefined,
       set_map s (Some (set_view m (ViewAt lat lng zoom))), [])
  end.

(** A parameter with a default value: [undefined] selects the default. *)
Definition default (v d : value) : value :=
  match v with VUndefined => d | _ => v end.

(** [a || b] *)
Definition js_or (a b : value) : value := if truthy a then a else b.

(** [v.k]: reading a property of [undefined] or [null] throws. *)
Definition get_prop (v : value) (k : string) : outcome value :=
  match v with
  | VUndefined | VNull =>
      Thrown (TypeError "Cannot read properties of undefined")
  | VObj _ props => Returned (lookup k props)
  | _ => Returned VUndefined
  end.

Definition prop (v : value) (k : string) : value :=
  match get_prop v k with Returned x => x | Thrown _ => VUndefined end.

Definition new_control (p : Leaflet.page) (k : control_kind)
    (config : list (string * value)) (group : option nat)
  : control * Leaflet.page :=
  let (i, p1) := fresh p in
  ({| cid := i; ckind := k; cconfig := config; cgroup := group;
      cminimized := false |}, p1).

Section WithRuntime2.
Context {rt : Runtime}.

(** [fitBounds(bounds)].  [widgetThrows] tells whether the widget's own
    [fitBounds] raises an exception on this call. *)
Definition fitBounds (bounds : value) (widgetThrows : bool) (s : state)
  : result :=
  match map s with
  | None => (Returned RetUndefined, s, [])
  | Some m =>
      if negb (truthy bounds)
         || negb (strict_equals (get_length bounds) (VNum 2%float))
         || negb (isArray (get_index bounds 0))
         || negb (isArray (get_index bounds 1))
         || negb (strict_equals (get_length (get_index bounds 0))
                    (VNum 2%float))
         || negb (strict_equals (get_length (get_index bounds 1))
                    (VNum 2%float))
      then (Returned RetUndefined, s, [ConsoleError "Invalid bounds format"])
      else
        match bounds with
        | VArr _ [VArr _ [minLat; minLng]; VArr _ [maxLat; maxLng]] =>
            if strict_equals minLat maxLat && strict_equals minLng maxLng
            then
              (Returned RetUndefined,
               set_map s
                 (Some (set_view m (ViewAt minLat minLng (VNum 10%float)))),
               [])
            else if isNaN minLat || isNaN minLng || isNaN maxLat
                    || isNaN maxLng
            then
              (Returned RetUndefined, s,
               [ConsoleError "Invalid coordinate values"])
            else if widgetThrows then
              let centerLat := js_div (js_add minLat maxLat) (VNum 2%float) in
              let centerLng := js_div (js_add minLng maxLng) (VNum 2%float) in
              (Returned RetUndefined,
               set_map s
                 (Some (set_view m (ViewAt centerLat centerLng
                                      (VNum 8%float)))),
               [ConsoleError "Error fitting bounds:"])
            else
              (Returned RetUndefined,
               set_map s (Some (set_view m (Fitted bounds (Some (50, 50))))),
               [])
        | _ => (Thrown (TypeError "bounds is not iterable"), s, [])
        end
  end.

End WithRuntime2.

(** [initDrawTools(lineColor = '#3388ff', fillColor = '#3388ff',
    lineWeight = 2)] *)
Definition initDrawTools (lineColor fillColor lineWeight : value) (s : state)
  : result :=
  let lineColor := default lineColor (VStr "#3388ff") in
  let fillColor := default fillColor (VStr "#3388ff") in
  let lineWeight := default lineWeight (VNum 2%float) in
  match map s with
  | None => (Returned RetUndefined, s, [])
  | Some m =>
      if negb (drawLoaded (page s)) then
        (Returned RetUndefined, s,
         [ConsoleError "Leaflet.draw library not loaded"])
      else
        let (group, p1) := new_layer (page s) FeatureGroup None []
                             VUndefined [] in
        let m1 := addLayer m group in
        let (ctl, p2) :=
          new_control p1 DrawControl
            [("position", VStr "topright"); ("lineColor", lineColor);
             ("fillColor", fillColor); ("lineWeight", lineWeight);
             ("marker", VBool true)]%string
            (Some group) in
        let m2 := addControl m1 (cid ctl) in
        let m3 := on m2 DrawCreated AddToDrawnItems in
        (Returned RetUndefined,
         set_drawControl
           (set_drawnItems (set_map (set_page s p2) (Some m3)) (Some group))
           (Some ctl),
         [])
  end.

(** [initDrawToolsAdvanced(options)] *)
Definition initDrawToolsAdvanced (options : value) (s : state) : result :=
  match map s with
  | None => (Returned RetUndefined, s, [])
  | Some m =>
      let (group, p1) := new_layer (page s) FeatureGroup None []
                           VUndefined [] in
      let m1 := addLayer m group in
      let s1 := set_drawnItems (set_map (set_page s p1) (Some m1))
                  (Some group) in
      match get_prop options "position" with
      | Thrown e => (Thrown e, s1, [])
      | Returned position =>
          if negb (drawLoaded (page s)) then
            (Thrown (TypeError "L.Control.Draw is not a constructor"), s1, [])
          else
            let (ctl, p2) :=
              new_control p1 DrawControl
                [("position", js_or position (VStr "topright"));
                 ("polyline", VBool (truthy (prop options "enablePolyline")));
                 ("polygon", VBool (truthy (prop options "enablePolygon")));
                 ("circle", VBool (truthy (prop options "enableCircle")));
                 ("rectangle",
                  VBool (truthy (prop options "enableRectangle")));
                 ("marker", prop options "enableMarker");
                 ("lineColor", prop options "lineColor");
                 ("fillColor", prop options "fillColor");
                 ("fillOpacity", prop options "fillOpacity");
                 ("lineWeight", prop options "lineWeight")]%string
                (Some group) in
            let m2 := addControl m1 (cid ctl) in
            let m3 := on m2 DrawCreated AddToDrawnItems in
            (Returned RetUndefined,
             set_drawControl (set_map (set_page s1 p2) (Some m3)) (Some ctl),
             [])
      end
  end.

Definition null_map : error :=
  TypeError "Cannot read properties of null".

(** [updateDrawToolsStyle(lineColor, fillColor, lineWeight,
    fillOpacity = 0.2)] *)
Definition updateDrawToolsStyle (lineColor fillColor lineWeight
    fillOpacity : value) (s : state) : result :=
  match drawControl s with
  | Some ctl =>
      match map s with
      | None => (Thrown null_map, s, [])
      | Some m =>
          initDrawTools lineColor fillColor lineWeight
            (set_map s (Some (removeControl m (cid ctl))))
      end
  | None => initDrawTools lineColor fillColor lineWeight s
  end.

(** [enableDrawing()] *)
Definition enableDrawing (s : state) : result :=
  match drawControl s with
  | Some ctl =>
      match map s with
      | None => (Thrown null_map, s, [])
      | Some m =>
          (Returned RetUndefined, set_map s (Some (addControl m (cid ctl))),
           [])
      end
  | None => (Returned RetUndefined, s, [])
  end.

(** [disableDrawing()] *)
Definition disableDrawing (s : state) : result :=
  match drawControl s with
  | Some ctl =>
      match map s with
      | None => (Thrown null_map, s, [])
      | Some m =>
          (Returned RetUndefined,
           set_map s (Some (removeControl m (cid ctl))), [])
      end
  | None => (Returned RetUndefined, s, [])
  end.

(** [clearAllDrawn()] *)
Definition clearAllDrawn (s : state) : result :=
  match drawnItems s with
  | Some g => (Returned RetUndefined,
               set_page s (group_clearLayers (page s) g), [])
  | None => (Returned RetUndefined, s, [])
  end.

(** [getDrawnGeoJson()] *)
Definition getDrawnGeoJson (s : state) : result :=
  match drawnItems s with
  | None => (Returned RetNull, s, [])
  | Some g => (Returned (RetText (group_toGeoJSON (page s) g)), s, [])
  end.

(** [addDrawnFromGeoJson(geoJson)] *)
Definition addDrawnFromGeoJson (geoJson : geojson) (s : state) : result :=
  match drawnItems s with
  | None => (Returned RetUndefined, s, [])
  | Some g =>
      match geoJSON (page s) geoJson VUndefined no_callback with
      | Thrown e => (Thrown e, s, [])
      | Returned (layer, p1) =>
          (Returned RetUndefined,
           set_page s
             (fold_left (fun p l => group_addLayer p g l) (members p1 layer)
                p1),
           [])
      end
  end.

(** [addMiniMap(miniMapLayerUrl, options = {})] *)
Definition addMiniMap (miniMapLayerUrl : string) (options : value) (s : state)
  : result :=
  match map s with
  | None => (Returned RetUndefined, s, [])
  | Some m =>
      if negb (miniMapLoaded (page s)) then
        (Returned RetUndefined, s,
         [ConsoleError "Leaflet.MiniMap plugin not loaded"])
      else
        let (_, p1) := new_layer (page s) TileLayer (Some miniMapLayerUrl) []
                         VUndefined [] in
        match options with
        | VNull => (Thrown null_map, set_page s p1, [])
        | _ =>
            let (ctl, p2) :=
              new_control p1 MiniMapControl
                [("width", js_or (prop options "width") (VNum 150%float));
                 ("height", js_or (prop options "height") (VNum 150%float));
                 ("position",
                  js_or (prop options "position") (VStr "bottomright"));
                 ("toggleDisplay",
                  VBool (negb (strict_equals (prop options "toggleDisplay")
                                 (VBool false))));
                 ("zoomLevelOffset",
                  js_or (prop options "zoomLevelOffset")
                    (VNum (-5)%float))]%string
                None in
            (Returned RetUndefined,
             set_miniMapControl
               (set_map (set_page s p2) (Some (addControl m (cid ctl))))
               (Some ctl),
             [])
        end
  end.

(** [removeMiniMap()] *)
Definition removeMiniMap (s : state) : result :=
  match miniMapControl s with
  | Some ctl =>
      match map s with
      | None => (Thrown null_map, s, [])
      | Some m =>
          (Returned RetUndefined,
           set_miniMapControl (set_map s (Some (removeControl m (cid ctl))))
             None,
           [])
      end
  | None => (Returned RetUndefined, s, [])
  end.

(** [toggleMiniMap()] *)
Definition toggleMiniMap (s : state) : result :=
  match miniMapControl s with
  | Some ctl =>
      (Returned RetUndefined,
       set_miniMapControl s
         (Some {| cid := cid ctl; ckind := ckind ctl; cconfig := cconfig ctl;
                  cgroup := cgroup ctl;
                  cminimized := negb (cminimized ctl) |}),
       [])
  | None => (Returned RetUndefined, s, [])
  end.

(** [setupMapClick(dotNetReference)] *)
Definition setupMapClick (dotNetReference : nat) (s : state) : result :=
  match map s with
  | None => (Returned RetUndefined, s, [])
  | Some m =>
      if isDisposed s then (Returned RetUndefined, s, [])
      else
        (Returned RetUndefined,
         set_map s
           (Some (on m Click (InvokeHost dotNetReference "HandleMapClick"))),
         [])
  end.

(** [dispose()] *)
Definition dispose (s : state) : result :=
  let s0 := set_isDisposed s true in
  let s1 :=
    match map s0 with
    | Some m =>
        let m1 := removeEach m (markers s0) in
        let m2 := removeEach m1 (circles s0) in
        let m3 := removeEach m2 (polygons s0) in
        let m4 := removeEach m3 (polylines s0) in
        let m5 := removeEach m4 (geoJsonLayers s0) in
        let m6 := match drawControl s0 with
                  | Some ctl => removeControl m5 (cid ctl)
                  | None => m5
                  end in
        let m7 := match miniMapControl s0 with
                  | Some ctl => removeControl m6 (cid ctl)
                  | None => m6
                  end in
        set_map (set_page s0 (remove_map (page s0) m7)) None
    | None => s0
    end in
  (Returned RetUndefined,
   set_miniMapControl
     (set_drawControl
        (set_drawnItems
           (set_geoJsonLayers
              (set_polylines
                 (set_polygons (set_circles (set_markers s1 []) []) []) [])
              [])
           None)
        None)
     None,
   []).

(** The state after disposal, on a page [p]. *)
Definition disposed (p : Leaflet.page) : state :=
  {| page := p; map := None; markers := []; circles := []; polygons := [];
     polylines := []; geoJsonLayers := []; drawnItems := None;
     drawControl := None; miniMapControl := None; isDisposed := true |}.

(** *** Events the widget delivers *)

(** One listener of the draw-created event runs on the finished layer. *)
Definition run_handler (layer : nat) (h : handler) (s : state)
  : outcome state :=
  match h with
  | AddToDrawnItems =>
      match drawnItems s with
      | Some g => Returned (set_page s (group_addLayer (page s) g layer))
      | None => Thrown null_map
      end
  | InvokeHost _ _ => Returned s
  end.

Fixpoint run_handlers (layer : nat) (hs : list handler) (s : state)
  : outcome state :=
  match hs with
  | [] => Returned s
  | h :: rest =>
      match run_handler layer h s with
      | Thrown e => Thrown e
      | Returned s1 => run_handlers layer rest s1
      end
  end.

(** The user completes a drawing of kind [k]: the drawing plugin creates the
    layer and fires the draw-created event on the map. *)
Definition userDraws (k : kind) (geom : list value) (s : state)
  : outcome state :=
  match map s with
  | None => Returned s
  | Some m =>
      let (layer, p1) := new_layer (page s) k None geom VUndefined [] in
      run_handlers layer (listeners m DrawCreated) (set_page s p1)
  end.

(** Number of draw-created subscriptions on the map. *)
Definition drawSubscriptions (s : state) : nat :=
  match map s with
  | Some m => List.length (listeners m DrawCreated)
  | None => 0
  end.

(** The layers in the drawn-items group. *)
Definition drawnLayers (s : state) : list nat :=
  match drawnItems s with
  | Some g => members (page s) g
  | None => []
  end.

(** *** Calls from the host *)

Inductive op : Type :=
  | CreateMap (elementId : string) (lat lng zoom : value)
  | AddMarker (lat lng popupText : value)
  | AddCircle (lat lng radius options : value)
  | AddPolygon (latLngs options : value)
  | AddPolyline (latLngs options : value)
  | AddGeoJson (geoJson : geojson) (options : value)
  | AddGeoJsonWithPopup (geoJson : geojson) (options : value)
  | ClearMap
  | SetView (lat lng zoom : value)
  | FitBounds (bounds : value) (widgetThrows : bool)
  | InitDrawTools (lineColor fillColor lineWeight : value)
  | InitDrawToolsAdvanced (options : value)
  | UpdateDrawToolsStyle (lineColor fillColor lineWeight fillOpacity : value)
  | EnableDrawing
  | DisableDrawing
  | ClearAllDrawn
  | GetDrawnGeoJson
  | AddDrawnFromGeoJson (geoJson : geojson)
  | AddMiniMap (miniMapLayerUrl : string) (options : value)
  | RemoveMiniMap
  | ToggleMiniMap
  | SetupMapClick (dotNetReference : nat)
  | Dispose.

Section Calls.
Context {rt : Runtime}.

Definition exec (o : op) (s : state) : result :=
  match o with
  | CreateMap e lat lng zoom => createMap e lat lng zoom s
  | AddMarker lat lng popupText => addMarker lat lng popupText s
  | AddCircle lat lng radius options => addCircle lat lng radius options s
  | AddPolygon latLngs options => addPolygon latLngs options s
  | AddPolyline latLngs options => addPolyline latLngs options s
  | AddGeoJson g options => addGeoJson g options s
  | AddGeoJsonWithPopup g options => addGeoJsonWithPopup g options s
  | ClearMap => clearMap s
  | SetView lat lng zoom => setView lat lng zoom s
  | FitBounds bounds widgetThrows => fitBounds bounds widgetThrows s
  | InitDrawTools a b c => initDrawTools a b c s
  | InitDrawToolsAdvanced options => initDrawToolsAdvanced options s
  | UpdateDrawToolsStyle a b c d => updateDrawToolsStyle a b c d s
  | EnableDrawing => enableDrawing s
  | DisableDrawing => disableDrawing s
  | ClearAllDrawn => clearAllDrawn s
  | GetDrawnGeoJson => getDrawnGeoJson s
  | AddDrawnFromGeoJson g => addDrawnFromGeoJson g s
  | AddMiniMap url options => addMiniMap url options s
  | RemoveMiniMap => removeMiniMap s
  | ToggleMiniMap => toggleMiniMap s
  | SetupMapClick r => setupMapClick r s
  | Dispose => dispose s
  end.

Definition state_of (r : result) : state := snd (fst r).
Definition outcome_of (r : result) : outcome ret := fst (fst r).
Definition logs_of (r : result) : list log := snd r.

(** A sequence of calls, each on the state the previous one left. *)
Definition run (os : list op) (s : state) : state :=
  fold_left (fun s o => state_of (exec o s)) os s.

End Calls.

(** The calls that add an overlay. *)
Definition is_add (o : op) : bool :=
  match o with
  | AddMarker _ _ _ | AddCircle _ _ _ _ | AddPolygon _ _ | AddPolyline _ _
  | AddGeoJson _ _ => true
  | _ => false
  end.

(** Everything the tracking lists hold. *)
Definition tracked (s : state) : list nat :=
  markers s ++ circles s ++ polygons s ++ polylines s ++ geoJsonLayers s.

Definition on_map (i : nat) (s : state) : bool :=
  match map s with
  | Some m => mem i (layers m)
  | None => false
  end.

End Registry.

(** ** [leafletWrapper.js]: the wrapper with switchable base layers *)

Module Wrapper.
Import Js Leaflet.

(** The module-level variables ([map] is [undefined] until [createMap];
    [drawEnabled] starts out falsy; [drawnItems] is a feature group from the
    moment the module is loaded). *)
Record state : Type := {
  page : Leaflet.page;
  map : option Leaflet.widget;
  baseLayers_osm : option nat;
  baseLayers_satellite : option nat;
  currentBaseLayer : string;
  miniMapControl : option Leaflet.control;
  drawControl : option Leaflet.control;
  drawEnabled : bool;
  drawnItems : nat
}.

Definition result : Type := outcome ret * state * list log.

Definition set_page (s : state) (x : Leaflet.page) : state :=
  {| page := x; map := map s; baseLayers_osm := baseLayers_osm s;
     baseLayers_satellite := baseLayers_satellite s; currentBaseLayer :=
     currentBaseLayer s; miniMapControl := miniMapControl s; drawControl
     := drawControl s; drawEnabled := drawEnabled s; drawnItems :=
     drawnItems s |}.

Definition set_map (s : state) (x : option Leaflet.widget) : state :=
  {| page := page s; map := x; baseLayers_osm := baseLayers_osm s;
     baseLayers_satellite := baseLayers_satellite s; currentBaseLayer :=
     currentBaseLayer s; miniMapControl := miniMapControl s; drawControl
     := drawControl s; drawEnabled := drawEnabled s; drawnItems :=
     drawnItems s |}.

Definition set_baseLayers_osm (s : state) (x : option nat) : state :=
  {| page := page s; map := map s; baseLayers_osm := x;
     baseLayers_satellite := baseLayers_satellite s; currentBaseLayer :=
     currentBaseLayer s; miniMapControl := miniMapControl s; drawControl
     := drawControl s; drawEnabled := drawEnabled s; drawnItems :=
     drawnItems s |}.

Definition set_baseLayers_satellite (s : state) (x : option nat) : state :=
  {| page := page s; map := map s; baseLayers_osm := baseLayers_osm s;
     baseLayers_satellite := x; currentBaseLayer := currentBaseLayer s;
     miniMapControl := miniMapControl s; drawControl := drawControl s;
     drawEnabled := drawEnabled s; drawnItems := drawnItems s |}.

Definition set_drawControl (s : state) (x : option Leaflet.control) : state :=
  {| page := page s; map := map s; baseLayers_osm := baseLayers_osm s;
     baseLayers_satellite := baseLayers_satellite s; currentBaseLayer :=
     currentBaseLayer s; miniMapControl := miniMapControl s; drawControl
     := x; drawEnabled := drawEnabled s; drawnItems := drawnItems s |}.

Definition set_drawEnabled (s : state) (x : bool) : state :=
  {| page := page s; map := map s; baseLayers_osm := baseLayers_osm s;
     baseLayers_satellite := baseLayers_satellite s; currentBaseLayer :=
     currentBaseLayer s; miniMapControl := miniMapControl s; drawControl
     := drawControl s; drawEnabled := x; drawnItems := drawnItems s |}.

Definition set_drawnItems (s : state) (x : nat) : state :=
  {| page := page s; map := map s; baseLayers_osm := baseLayers_osm s;
     baseLayers_satellite := baseLayers_satellite s; currentBaseLayer :=
     currentBaseLayer s; miniMapControl := miniMapControl s; drawControl
     := drawControl s; drawEnabled := drawEnabled s; drawnItems := x |}.

Definition initial (p : Leaflet.page) : state :=
  let (group, p1) := new_layer p FeatureGroup None [] VUndefined [] in
  {| page := p1; map := None; baseLayers_osm := None;
     baseLayers_satellite := None; currentBaseLayer := "osm";
     miniMapControl := None; drawControl := None; drawEnabled := false;
     drawnItems := group |}.

Definition undefined_map : error :=
  TypeError "Cannot read properties of undefined".

Definition satellite_url : string :=
  "https://server.arcgisonline.com/ArcGIS/rest/services/World_Imagery/MapServer/tile/{z}/{y}/{x}".

(** [createMap(elementId, lat, lng, zoom)] *)
Definition createMap (elementId : string) (lat lng zoom : value) (s : state)
  : result :=
  match new_map (page s) elementId with
  | Thrown e => (Thrown e, s, [])
  | Returned (m, p1) =>
      let m1 := set_view m (ViewAt lat lng zoom) in
      let (osm, p2) := new_layer p1 TileLayer (Some Registry.osm_url) []
                         VUndefined [] in
      let m2 := addLayer m1 osm in
      let (satellite, p3) := new_layer p2 TileLayer (Some satellite_url) []
                               VUndefined [] in
      let (ctl, p4) := Registry.new_control p3 LayersControl [] None in
      let m3 := addControl m2 (cid ctl) in
      (Returned RetMap,
       set_baseLayers_satellite
         (set_baseLayers_osm (set_map (set_page s p4) (Some m3)) (Some osm))
         (Some satellite),
       [])
  end.

(** [{ ...defaults, ...options }]: the own properties of [options] override
    the entries before them. *)
Fixpoint assign (k : string) (v : value) (o : list (string * value))
  : list (string * value) :=
  match o with
  | [] => [(k, v)]
  | (k', v') :: rest =>
      if String.eqb k k' then (k, v) :: rest else (k', v') :: assign k v rest
  end.

Definition spread (base : list (string * value)) (options : value)
  : list (string * value) :=
  match options with
  | VObj _ props => fold_left (fun o kv => assign (fst kv) (snd kv) o) props base
  | _ => base
  end.

(** [layer.addTo(map)] with the module's [map]. *)
Definition addTo_map (i : nat) (s : state) : outcome state :=
  match map s with
  | None => Thrown undefined_map
  | Some m => Returned (set_map s (Some (addLayer m i)))
  end.

(** [addMarker(lat, lng, popupText)] *)
Definition addMarker (lat lng popupText : value) (s : state) : result :=
  let (marker, p1) := new_layer (page s) Marker None [lat; lng]
                        VUndefined [] in
  match addTo_map marker (set_page s p1) with
  | Thrown e => (Thrown e, s, [])
  | Returned s1 =>
      let s2 := if truthy popupText
                then set_page s1 (bindPopup (page s1) marker popupText)
                else s1 in
      (Returned (RetHandle marker), s2, [])
  end.

(** An overlay built from style defaults and the caller's options, then
    added to the map; reading a property of [null] options throws. *)
Definition add_styled (k : kind) (geom : list value)
    (defaults : value -> list (string * value)) (options : value) (s : state)
  : result :=
  let options := Registry.default options (VObj 0 []) in
  match options with
  | VNull => (Thrown (TypeError "Cannot read properties of null"), s, [])
  | _ =>
      let (i, p1) := new_layer (page s) k None geom
                       (VObj 0 (spread (defaults options) options)) [] in
      match addTo_map i (set_page s p1) with
      | Thrown e => (Thrown e, s, [])
      | Returned s1 => (Returned (RetHandle i), s1, [])
      end
  end.

Definition opt (options : value) (k : string) (d : value) : value :=
  Registry.js_or (Registry.prop options k) d.

(** [addCircle(lat, lng, radius, options = {})] *)
Definition addCircle (lat lng radius options : value) (s : state) : result :=
  add_styled Circle [lat; lng; radius]
    (fun o => [("radius", radius); ("color", opt o "color" (VStr "red"));
               ("fillColor", opt o "fillColor" (VStr "#f03"));
               ("fillOpacity", opt o "fillOpacity" (VNum 0.5%float));
               ("weight", opt o "weight" (VNum 2%float))]%string)
    options s.

(** [addPolygon(latLngs, options = {})] *)
Definition addPolygon (latLngs options : value) (s : state) : result :=
  add_styled Polygon [latLngs]
    (fun o => [("color", opt o "color" (VStr "blue"));
               ("fillColor",
                Registry.js_or (Registry.prop o "fillColor")
                  (opt o "color" (VStr "blue")));
               ("fillOpacity", opt o "fillOpacity" (VNum 0.5%float));
               ("weight", opt o "weight" (VNum 2%float))]%string)
    options s.

(** [addPolyline(latLngs, options = {})] *)
Definition addPolyline (latLngs options : value) (s : state) : result :=
  add_styled Polyline [latLngs]
    (fun o => [("color", opt o "color" (VStr "green"));
               ("weight", opt o "weight" (VNum 3%float))]%string)
    options s.

(** [addGeoJson(geoJsonData, options = {})] *)
Definition addGeoJson (geoJsonData : geojson) (options : value) (s : state)
  : result :=
  let options := Registry.default options (VObj 0 []) in
  match options with
  | VNull => (Thrown (TypeError "Cannot read properties of null"), s, [])
  | _ =>
      let style :=
        spread [("style", opt options "style" (VObj 0 [("color", VStr "purple")]));
                ("onEachFeature", Registry.prop options "onEachFeature")]%string
          options in
      match geoJSON (page s) geoJsonData (VObj 0 style) no_callback with
      | Thrown e => (Thrown e, s, [])
      | Returned (layer, p1) =>
          match addTo_map layer (set_page s p1) with
          | Thrown e => (Thrown e, s, [])
          | Returned s1 => (Returned (RetHandle layer), s1, [])
          end
      end
  end.

Section WithRuntime.
Context {rt : Runtime}.

(** One turn of the loop over [feature.properties]:
    [popupContent = popupContent.replace(`{${prop}}`, feature.properties[prop])] *)
Definition substitute (popupContent : value) (kv : string * value)
  : outcome value :=
  match popupContent with
  | VStr text =>
      Returned (VStr (replace text ("{" ++ fst kv ++ "}")
                        (ToString (snd kv))))
  | _ => Thrown (TypeError "popupContent.replace is not a function")
  end.

(** The whole loop, starting from [popupTemplate]. *)
Fixpoint popupContent (popupTemplate : value) (props : list (string * value))
  : outcome value :=
  match props with
  | [] => Returned popupTemplate
  | kv :: rest =>
      match substitute popupTemplate kv with
      | Thrown e => Thrown e
      | Returned next => popupContent next rest
      end
  end.

(** The [onEachFeature] callback of [addGeoJsonWithPopup]. *)
Definition bind_template_popup (popupTemplate : value) (f : feature) (i : nat)
    (p : Leaflet.page) : outcome Leaflet.page :=
  match fproperties f with
  | Some props =>
      if truthy popupTemplate then
        match popupContent popupTemplate props with
        | Thrown e => Thrown e
        | Returned content => Returned (bindPopup p i content)
        end
      else Returned p
  | None => Returned p
  end.

(** [addGeoJsonWithPopup(geoJsonData, popupTemplate)] *)
Definition addGeoJsonWithPopup (geoJsonData : geojson) (popupTemplate : value)
    (s : state) : result :=
  match geoJSON (page s) geoJsonData VUndefined
          (bind_template_popup popupTemplate) with
  | Thrown e => (Thrown e, s, [])
  | Returned (layer, p1) =>
      match addTo_map layer (set_page s p1) with
      | Thrown e => (Thrown e, s, [])
      | Returned s1 => (Returned (RetHandle layer), s1, [])
      end
  end.

End WithRuntime.

(** [removeLayer(layer)] *)
Definition removeLayer (layer : nat) (s : state) : result :=
  match map s with
  | None => (Thrown undefined_map, s, [])
  | Some m =>
      (Returned RetUndefined, set_map s (Some (Leaflet.removeLayer m layer)),
       [])
  end.

Definition is_some {A : Type} (o : option A) : bool :=
  match o with Some _ => true | None => false end.

(** [layer._url] is truthy. *)
Definition has_url (p : Leaflet.page) (i : nat) : bool :=
  match find_layer i (heap p) with
  | Some l => match lurl l with
              | Some u => negb (String.eqb u "")
              | None => false
              end
  | None => false
  end.

(** [clearMap()]: the test applied to every layer of the map is
    [!layer._url && !baseLayers.osm && !baseLayers.satellite]. *)
Definition clearMap (s : state) : result :=
  match map s with
  | None => (Thrown undefined_map, s, [])
  | Some m =>
      let m1 :=
        fold_left
          (fun acc layer =>
             if negb (has_url (page s) layer)
                && negb (is_some (baseLayers_osm s))
                && negb (is_some (baseLayers_satellite s))
             then Leaflet.removeLayer acc layer
             else acc)
          (layers m) m in
      (Returned RetUndefined, set_map s (Some m1), [])
  end.

(** The draw control both initialisers end with: the control goes on the
    map, drawing is enabled, earlier draw-created listeners are dropped and
    one is registered. *)
Definition install_draw_control (config : list (string * value)) (m : widget)
    (s : state) : result :=
  if negb (drawLoaded (page s)) then
    (Thrown (TypeError "L.Control.Draw is not a constructor"),
     set_map s (Some m), [])
  else
    let (ctl, p1) := Registry.new_control (page s) DrawControl config
                       (Some (drawnItems s)) in
    let m1 := addControl m (cid ctl) in
    let m2 := off m1 DrawCreated in
    let m3 := on m2 DrawCreated AddToDrawnItems in
    (Returned RetUndefined,
     set_drawEnabled
       (set_drawControl (set_map (set_page s p1) (Some m3)) (Some ctl)) true,
     []).

(** The first half of both initialisers: the old drawn-items group leaves
    the map, a new one takes its place, the old control is removed. *)
Definition reset_drawn_items (m : widget) (s : state) : widget * state :=
  let m1 := Leaflet.removeLayer m (drawnItems s) in
  let (group, p1) := new_layer (page s) FeatureGroup None [] VUndefined [] in
  let m2 := addLayer m1 group in
  let m3 := match drawControl s with
            | Some ctl => removeControl m2 (cid ctl)
            | None => m2
            end in
  (m3, set_drawnItems (set_page s p1) group).

(** [initDrawTools(lineColor = '#3388ff', fillColor = '#3388ff',
    lineWeight = 2)] *)
Definition initDrawTools (lineColor fillColor lineWeight : value) (s : state)
  : result :=
  let lineColor := Registry.default lineColor (VStr "#3388ff") in
  let fillColor := Registry.default fillColor (VStr "#3388ff") in
  let lineWeight := Registry.default lineWeight (VNum 2%float) in
  match map s with
  | None => (Thrown undefined_map, s, [])
  | Some m =>
      let (m1, s1) := reset_drawn_items m s in
      install_draw_control
        [("position", VStr "topright"); ("lineColor", lineColor);
         ("fillColor", fillColor); ("lineWeight", lineWeight);
         ("fillOpacity", VNum 0.2%float)]%string
        m1 s1
  end.

Definition defaultOptions : list (string * value) :=
  [("lineColor", VStr "#3388ff"); ("fillColor", VStr "#3388ff");
   ("lineWeight", VNum 2%float); ("fillOpacity", VNum 0.2%float);
   ("position", VStr "topright"); ("enablePolygon", VBool true);
   ("enablePolyline", VBool true); ("enableRectangle", VBool true);
   ("enableCircle", VBool true); ("enableMarker", VBool true)]%string.

(** [initDrawToolsAdvanced(options)] *)
Definition initDrawToolsAdvanced (options : value) (s : state) : result :=
  let config := spread defaultOptions options in
  match map s with
  | None => (Thrown undefined_map, s, [])
  | Some m =>
      let (m1, s1) := reset_drawn_items m s in
      install_draw_control config m1 s1
  end.

(** [updateDrawToolsStyle(lineColor, fillColor, lineWeight,
    fillOpacity = 0.2)] *)
Definition updateDrawToolsStyle (lineColor fillColor lineWeight
    fillOpacity : value) (s : state) : result :=
  initDrawTools lineColor fillColor lineWeight s.

(** [enableDrawing()] *)
Definition enableDrawing (s : state) : result :=
  match drawControl s with
  | None => (Returned RetUndefined, s, [])
  | Some ctl =>
      if drawEnabled s then (Returned RetUndefined, s, [])
      else
        match map s with
        | None => (Thrown undefined_map, s, [])
        | Some m =>
            (Returned RetUndefined,
             set_drawEnabled (set_map s (Some (addControl m (cid ctl)))) true,
             [])
        end
  end.

(** [disableDrawing()] *)
Definition disableDrawing (s : state) : result :=
  match drawControl s with
  | None => (Returned RetUndefined, s, [])
  | Some ctl =>
      if drawEnabled s then
        let s1 := match map s with
                  | Some m => set_map s (Some (removeControl m (cid ctl)))
                  | None => s
                  end in
        (Returned RetUndefined, set_drawEnabled s1 false, [])
      else (Returned RetUndefined, s, [])
  end.

(** [clearAllDrawn()] *)
Definition clearAllDrawn (s : state) : result :=
  (Returned RetUndefined,
   set_page s (group_clearLayers (page s) (drawnItems s)), []).

(** [getDrawnGeoJson()] *)
Definition getDrawnGeoJson (s : state) : result :=
  (Returned (RetText (group_toGeoJSON (page s) (drawnItems s))), s, []).

(** [addDrawnFromGeoJson(geoJson)] *)
Definition addDrawnFromGeoJson (geoJson : geojson) (s : state) : result :=
  match geoJSON (page s) geoJson VUndefined
          (fun _ layer p => Returned (group_addLayer p (drawnItems s) layer))
  with
  | Thrown e => (Thrown e, s, [])
  | Returned (_, p1) => (Returned RetUndefined, set_page s p1, [])
  end.

(** [setupMapClick(dotNetReference)] *)
Definition setupMapClick (dotNetReference : nat) (s : state) : result :=
  match map s with
  | None => (Thrown undefined_map, s, [])
  | Some m =>
      (Returned RetUndefined,
       set_map s (Some (on m Click (InvokeHost dotNetReference "OnMapClick"))),
       [])
  end.

(** [setView(lat, lng, zoom)] *)
Definition setView (lat lng zoom : value) (s : state) : result :=
  match map s with
  | Some m =>
      (Returned RetUndefined,
       set_map s (Some (set_view m (ViewAt lat lng zoom))), [])
  | None => (Returned RetUndefined, s, [])
  end.

(** [fitBounds(bounds)]: the bounds go to the widget as they are.
    [widgetThrows] tells whether the widget raises an exception on them. *)
Definition fitBounds (bounds : value) (widgetThrows : bool) (s : state)
  : result :=
  match map s with
  | Some m =>
      if widgetThrows then (Thrown (Error "Bounds are not valid."), s, [])
      else
        (Returned RetUndefined,
         set_map s (Some (set_view m (Fitted bounds None))), [])
  | None => (Returned RetUndefined, s, [])
  end.

(** *** Events the widget delivers *)

Definition run_handler (layer : nat) (h : handler) (s : state) : state :=
  match h with
  | AddToDrawnItems => set_page s (group_addLayer (page s) (drawnItems s) layer)
  | InvokeHost _ _ => s
  end.

(** The user completes a drawing of kind [k]. *)
Definition userDraws (k : kind) (geom : list value) (s : state) : state :=
  match map s with
  | None => s
  | Some m =>
      let (layer, p1) := new_layer (page s) k None geom VUndefined [] in
      fold_left (fun acc h => run_handler layer h acc)
        (listeners m DrawCreated) (set_page s p1)
  end.

Definition drawSubscriptions (s : state) : nat :=
  match map s with
  | Some m => List.length (listeners m DrawCreated)
  | None => 0
  end.

Definition drawnLayers (s : state) : list nat :=
  members (page s) (drawnItems s).

(** *** Base layers, structures and the mini-map *)

Definition set_currentBaseLayer (s : state) (x : string) : state :=
  {| page := page s; map := map s; baseLayers_osm := baseLayers_osm s;
     baseLayers_satellite := baseLayers_satellite s; currentBaseLayer :=
     x; miniMapControl := miniMapControl s; drawControl := drawControl s;
     drawEnabled := drawEnabled s; drawnItems := drawnItems s |}.

Definition set_miniMapControl (s : state) (x : option Leaflet.control) : state :=
  {| page := page s; map := map s; baseLayers_osm := baseLayers_osm s;
     baseLayers_satellite := baseLayers_satellite s; currentBaseLayer :=
     currentBaseLayer s; miniMapControl := x; drawControl := drawControl
     s; drawEnabled := drawEnabled s; drawnItems := drawnItems s |}.

(** What [baseLayers[name]] yields: one of the two layers [createMap]
    stored, a member inherited from [Object.prototype] (truthy, and not a
    layer), or [undefined]. *)
Inductive base_lookup : Type :=
  | Own (layer : nat)
  | Inherited
  | Missing.

Definition object_prototype_names : list string :=
  ["constructor"; "hasOwnProperty"; "isPrototypeOf"; "propertyIsEnumerable";
   "toLocaleString"; "toString"; "valueOf"; "__proto__"; "__defineGetter__";
   "__defineSetter__"; "__lookupGetter__"; "__lookupSetter__"]%string.

Definition baseLayers (s : state) (name : string) : base_lookup :=
  if String.eqb name "osm" then
    match baseLayers_osm s with Some l => Own l | None => Missing end
  else if String.eqb name "satellite" then
    match baseLayers_satellite s with Some l => Own l | None => Missing end
  else if mem_string name object_prototype_names then Inherited
  else Missing.

(** [setMapType(mapType)] *)
Definition setMapType (mapType : string) (s : state) : result :=
  let removed : outcome state :=
    match baseLayers s (currentBaseLayer s) with
    | Missing => Returned s
    | Own l =>
        match map s with
        | None => Thrown undefined_map
        | Some m => Returned (set_map s (Some (Leaflet.removeLayer m l)))
        end
    | Inherited =>
        match map s with
        | None => Thrown undefined_map
        | Some _ => Returned s
        end
    end in
  match removed with
  | Thrown e => (Thrown e, s, [])
  | Returned s1 =>
      match baseLayers s1 mapType with
      | Missing => (Returned RetUndefined, s1, [])
      | Own l =>
          match map s1 with
          | None => (Thrown undefined_map, s1, [])
          | Some m =>
              (Returned RetUndefined,
               set_currentBaseLayer (set_map s1 (Some (addLayer m l))) mapType,
               [])
          end
      | Inherited =>
          match map s1 with
          | None => (Thrown undefined_map, s1, [])
          | Some _ =>
              (Thrown (Error "The provided object is not a Layer."), s1, [])
          end
      end
  end.

(** The style of [addStructure] and [addRectangleStructure]. *)
Definition structure_style (color borderWidth : value) (o : value)
  : list (string * value) :=
  [("color", color); ("weight", borderWidth); ("fillColor", color);
   ("fillOpacity", opt o "fillOpacity" (VNum 0.5%float));
   ("opacity", opt o "opacity" (VNum 1%float))]%string.

(** [addStructure(latLngs, color = 'blue', borderWidth = 2, options = {})] *)
Definition addStructure (latLngs color borderWidth options : value)
    (s : state) : result :=
  add_styled Polygon [latLngs]
    (structure_style (Registry.default color (VStr "blue"))
       (Registry.default borderWidth (VNum 2%float)))
    options s.

(** [addRectangleStructure(bounds, color = 'blue', borderWidth = 2,
    options = {})] *)
Definition addRectangleStructure (bounds color borderWidth options : value)
    (s : state) : result :=
  add_styled Rectangle [bounds]
    (structure_style (Registry.default color (VStr "blue"))
       (Registry.default borderWidth (VNum 2%float)))
    options s.

Definition miniMapDefaults : list (string * value) :=
  [("toggleDisplay", VBool true); ("position", VStr "bottomright");
   ("width", VNum 150%float); ("height", VNum 150%float);
   ("collapsedWidth", VNum 19%float); ("collapsedHeight", VNum 19%float);
   ("zoomLevelOffset", VNum (-5)%float); ("zoomLevelFixed", VBool false);
   ("centerFixed", VBool false); ("zoomAnimation", VBool true);
   ("autoToggleDisplay", VBool false); ("minimized", VBool false);
   ("strings",
    VObj 0 [("hideText", VStr "Hide MiniMap");
            ("showText", VStr "Show MiniMap")])]%string.

(** [addMiniMap(miniMapLayerUrl = <OpenStreetMap tiles>, options = {})];
    the control is returned by reference. *)
Definition addMiniMap (miniMapLayerUrl : option string) (options : value)
    (s : state) : result :=
  let url := match miniMapLayerUrl with
             | Some u => u
             | None => Registry.osm_url
             end in
  let removed : outcome state :=
    match miniMapControl s with
    | None => Returned s
    | Some old =>
        match map s with
        | None => Thrown undefined_map
        | Some m => Returned (set_map s (Some (removeControl m (cid old))))
        end
    end in
  match removed with
  | Thrown e => (Thrown e, s, [])
  | Returned s1 =>
      let config := spread miniMapDefaults options in
      let (_, p1) := new_layer (page s1) TileLayer (Some url) []
                       VUndefined [] in
      if negb (miniMapLoaded (page s1)) then
        (Thrown (TypeError "L.Control.MiniMap is not a constructor"),
         set_page s1 p1, [])
      else
        let (ctl, p2) := Registry.new_control p1 MiniMapControl config None in
        match map s1 with
        | None => (Thrown undefined_map, set_page s1 p2, [])
        | Some m =>
            (Returned (RetHandle (cid ctl)),
             set_miniMapControl
               (set_map (set_page s1 p2) (Some (addControl m (cid ctl))))
               (Some ctl),
             [])
        end
  end.

(** [removeMiniMap()] *)
Definition removeMiniMap (s : state) : result :=
  match miniMapControl s with
  | None => (Returned RetUndefined, s, [])
  | Some ctl =>
      match map s with
      | None => (Thrown undefined_map, s, [])
      | Some m =>
          (Returned RetUndefined,
           set_miniMapControl (set_map s (Some (removeControl m (cid ctl))))
             None,
           [])
      end
  end.

End Wrapper.

(** ** [leafletCrimesWrapper.js]: the controller of [addTimelineAnimation] *)

Module Timeline.
Import Js.

(** The closure state of the controller once the markers exist:
    [currentIndex], the opacity of each of the [timelineMarkers], the
    indices of the markers whose popup was opened (in order) and the number
    of [setTimeout] timers that have not fired yet. *)
Record state : Type := {
  currentIndex : nat;
  opacity : list float;
  opened : list nat;
  pending : nat
}.

Definition dim : float := 0.3%float.
Definition full : float := 1%float.

(** After the loop over [points]: one marker for each point, created with
    [{ opacity: 0.3 }]. *)
Definition initial (points : nat) : state :=
  {| currentIndex := 0; opacity := repeat dim points; opened := [];
     pending := 0 |}.

Fixpoint set_at (i : nat) (v : float) (l : list float) : list float :=
  match l, i with
  | [], _ => []
  | _ :: rest, 0 => v :: rest
  | x :: rest, S i' => x :: set_at i' v rest
  end.

(** [timelineMarkers[i].setOpacity(v)]: indexing past the end yields
    [undefined], and the call throws. *)
Definition setOpacity (i : nat) (v : float) (s : state) : outcome state :=
  if Nat.ltb i (List.length (opacity s)) then
    Returned {| currentIndex := currentIndex s;
                opacity := set_at i v (opacity s);
                opened := opened s; pending := pending s |}
  else Thrown (TypeError "Cannot read properties of undefined").

(** [animateNext()] *)
Definition animateNext (s : state) : outcome state :=
  match (if Nat.ltb 0 (currentIndex s)
         then setOpacity (currentIndex s - 1) dim s
         else Returned s) with
  | Thrown e => Thrown e
  | Returned s1 =>
      if Nat.ltb (currentIndex s1) (List.length (opacity s1)) then
        match setOpacity (currentIndex s1) full s1 with
        | Thrown e => Thrown e
        | Returned s2 =>
            Returned {| currentIndex := S (currentIndex s2);
                        opacity := opacity s2;
                        opened := opened s2 ++ [currentIndex s2];
                        pending := S (pending s2) |}
        end
      else Returned s1
  end.

(** [start()] *)
Definition start (s : state) : outcome state := animateNext s.

(** [stop()] *)
Definition stop (s : state) : outcome state :=
  Returned {| currentIndex := List.length (opacity s); opacity := opacity s;
              opened := opened s; pending := pending s |}.

(** [reset()] *)
Definition reset (s : state) : outcome state :=
  Returned {| currentIndex := 0;
              opacity := List.map (fun _ => dim) (opacity s);
              opened := opened s; pending := pending s |}.

(** A timer fires: it runs [animateNext].  Without a pending timer nothing
    happens. *)
Definition tick (s : state) : outcome state :=
  match pending s with
  | 0 => Returned s
  | S n => animateNext {| currentIndex := currentIndex s;
                          opacity := opacity s; opened := opened s;
                          pending := n |}
  end.

Inductive event : Type := Start | Stop | Reset | Tick.

Definition step (e : event) (s : state) : outcome state :=
  match e with
  | Start => start s
  | Stop => stop s
  | Reset => reset s
  | Tick => tick s
  end.

(** Events in order; an exception ends the run. *)
Fixpoint run (es : list event) (s : state) : outcome state :=
  match es with
  | [] => Returned s
  | e :: rest =>
      match step e s with
      | Thrown err => Thrown err
      | Returned s1 => run rest s1
      end
  end.

End Timeline.

(** ** A page and a runtime to run the model on *)

Module Demo.
Import Js Leaflet.

(** A document with one element, [map], and both plugins loaded. *)
Definition page : Leaflet.page :=
  {| heap := []; next := 0; elements := ["map"%string]; occupied := [];
     drawLoaded := true; miniMapLoaded := true |}.

(** A runtime for runs that convert no number to or from text: every text
    reads as NaN and every number prints as [NaN]. *)
Definition runtime : Runtime :=
  {| StringToNumber := fun _ => PrimFloat.nan;
     NumberToString := fun _ => "NaN"%string |}.

Definition zero : value := VNum 0%float.
Definition ten : value := VNum 10%float.

(** The tracking wrapper after [createMap], [initDrawTools] and two
    drawings by the user. *)
Definition registry_drawn : Registry.state :=
  let s0 := Registry.initial page in
  let s1 := snd (fst (Registry.createMap "map" zero zero ten s0)) in
  let s2 := snd (fst (Registry.initDrawTools VUndefined VUndefined
                        VUndefined s1)) in
  match Registry.userDraws Marker [zero; zero] s2 with
  | Thrown _ => s2
  | Returned s3 =>
      match Registry.userDraws Polygon [zero; ten; ten] s3 with
      | Thrown _ => s3
      | Returned s4 => s4
      end
  end.

(** The tracking wrapper after [createMap]. *)
Definition registry_ready : Registry.state :=
  snd (fst (Registry.createMap "map" zero zero ten (Registry.initial page))).

(** The tracking wrapper after [createMap] and [initDrawTools]. *)
Definition registry_tools : Registry.state :=
  snd (fst (Registry.initDrawTools VUndefined VUndefined VUndefined
              registry_ready)).

(** [leafletWrapper.js] after [createMap]. *)
Definition wrapper_ready : Wrapper.state :=
  snd (fst (Wrapper.createMap "map" zero zero ten (Wrapper.initial page))).

(** [leafletWrapper.js] after [createMap] and [initDrawTools]. *)
Definition wrapper_tools : Wrapper.state :=
  snd (fst (Wrapper.initDrawTools VUndefined VUndefined VUndefined
              wrapper_ready)).

(** [leafletWrapper.js] after the same calls and drawings. *)
Definition wrapper_drawn : Wrapper.state :=
  let s0 := Wrapper.initial page in
  let s1 := snd (fst (Wrapper.createMap "map" zero zero ten s0)) in
  let s2 := snd (fst (Wrapper.initDrawTools VUndefined VUndefined
                        VUndefined s1)) in
  Wrapper.userDraws Polygon [zero; ten; ten]
    (Wrapper.userDraws Marker [zero; zero] s2).

(** The map of [wrapper_ready], and the map and the draw control of
    [wrapper_tools]. *)
Definition ready_map : widget :=
  {| container := "map"; layers := [1]; controls := [3]; handlers := [];
     current_view := Some (ViewAt zero zero ten) |}.

Definition tools_map : widget :=
  {| container := "map"; layers := [1; 4]; controls := [3; 5];
     handlers := [(DrawCreated, AddToDrawnItems)];
     current_view := Some (ViewAt zero zero ten) |}.

Definition tools_control : control :=
  {| cid := 5; ckind := DrawControl;
     cconfig := [("position"%string, VStr "topright");
                 ("lineColor"%string, VStr "#3388ff");
                 ("fillColor"%string, VStr "#3388ff");
                 ("lineWeight"%string, VNum 2%float);
                 ("fillOpacity"%string, VNum 0.2%float)];
     cgroup := Some 4; cminimized := false |}.

End Demo.

(** * Theorems *)

Import Js Leaflet.


Section BearingFacts.
Local Open Scope R_scope.





End BearingFacts.

(** ** Calls before the map exists *)

Section NotReady.
Context {rt : Runtime}.

(** In the tracking wrapper the eight calls return [undefined], change
    nothing and log nothing while [map] is [null]. *)
Lemma registry_not_ready (s : Registry.state) (o : Registry.op) :
  Registry.map s = None ->
  match o with
  | Registry.AddMarker _ _ _ | Registry.AddCircle _ _ _ _
  | Registry.AddPolygon _ _ | Registry.AddPolyline _ _
  | Registry.AddGeoJson _ _ | Registry.ClearMap | Registry.FitBounds _ _
  | Registry.SetView _ _ _ => True
  | _ => False
  end ->
  Registry.exec o s = (Returned RetUndefined, s, []).
Proof.
  intros Hmap Hop.
  destruct o; try contradiction; simpl;
    unfold Registry.addMarker, Registry.addCircle, Registry.addPolygon,
      Registry.addPolyline, Registry.addGeoJson, Registry.clearMap,
      Registry.fitBounds, Registry.setView;
    rewrite Hmap; reflexivity.
Qed.

End NotReady.

(** C2: in [leafletWrapper.js], [clearMap] and [addMarker] called before
    [createMap] throw a [TypeError] to the host instead of being ignored;
    [setView] and [fitBounds] of the same file are guarded and return. *)
Theorem wrapper_calls_throw_before_createMap (p : Leaflet.page) :
  let s := Wrapper.initial p in
  Wrapper.clearMap s = (Thrown Wrapper.undefined_map, s, [])
  /\ (forall lat lng popupText,
        Wrapper.addMarker lat lng popupText s
        = (Thrown Wrapper.undefined_map, s, []))
  /\ (forall lat lng zoom,
        Wrapper.setView lat lng zoom s = (Returned RetUndefined, s, []))
  /\ (forall bounds throws,
        Wrapper.fitBounds bounds throws s = (Returned RetUndefined, s, [])).
Proof.
  cbv zeta. repeat split; intros; reflexivity.
Qed.

(** ** [clearMap] *)

Lemma fold_left_id {A B : Type} (f : A -> B -> A) (l : list B) (a : A) :
  (forall acc x, f acc x = acc) -> fold_left f l a = a.
Proof.
  intros Hf. induction l as [| x l IH]; simpl; [reflexivity |].
  rewrite Hf. exact IH.
Qed.

(** Once [createMap] has stored the OpenStreetMap layer in [baseLayers],
    the test of [clearMap] in [leafletWrapper.js] fails for every layer: the
    call removes nothing. *)
Lemma wrapper_clearMap_removes_nothing (s : Wrapper.state) (m : widget)
    (osm : nat) :
  Wrapper.map s = Some m ->
  Wrapper.baseLayers_osm s = Some osm ->
  Wrapper.clearMap s = (Returned RetUndefined, Wrapper.set_map s (Some m), []).
Proof.
  intros Hmap Hosm. unfold Wrapper.clearMap. rewrite Hmap, Hosm.
  rewrite fold_left_id; [reflexivity |].
  intros acc x. destruct (Wrapper.has_url (Wrapper.page s) x); reflexivity.
Qed.

Lemma mem_remove_id (i j : nat) (l : list nat) :
  mem i (remove_id j l) = mem i l && negb (Nat.eqb i j).
Proof.
  unfold mem, remove_id. induction l as [| x l IH]; simpl; [reflexivity |].
  destruct (Nat.eqb_spec x j) as [E | E]; simpl.
  - rewrite IH. subst x. destruct (Nat.eqb_spec i j); simpl;
      [rewrite andb_false_r; reflexivity | reflexivity].
  - rewrite IH. destruct (Nat.eqb_spec i x) as [E' | E']; simpl;
      [| reflexivity].
    subst x. destruct (Nat.eqb_spec i j); [contradiction | reflexivity].
Qed.

Lemma mem_removeEach (i : nat) (l : list nat) :
  forall m, mem i (layers (Registry.removeEach m l))
            = mem i (layers m) && negb (mem i l).
Proof.
  unfold Registry.removeEach.
  induction l as [| x l IH]; intros m; simpl.
  - rewrite andb_true_r. reflexivity.
  - rewrite IH. simpl. rewrite mem_remove_id.
    rewrite negb_orb, andb_assoc. reflexivity.
Qed.

Lemma mem_app (i : nat) (a b : list nat) : mem i (a ++ b) = mem i a || mem i b.
Proof. unfold mem. apply existsb_app. Qed.

(** The tracking wrapper's [clearMap], with the map created: the tracking
    lists are empty afterwards, and a layer is on the map afterwards exactly
    when it was on the map and not tracked; the base tile layer, which is in
    no tracking list, stays. *)
Lemma registry_clearMap_clears (s : Registry.state) (m : widget) (i : nat) :
  Registry.map s = Some m ->
  let s' := snd (fst (Registry.clearMap s)) in
  Registry.tracked s' = []
  /\ Registry.on_map i s'
     = Registry.on_map i s && negb (mem i (Registry.tracked s)).
Proof.
  intros Hmap. unfold Registry.clearMap. rewrite Hmap. cbv zeta.
  split; [reflexivity |].
  unfold Registry.on_map. rewrite Hmap. cbn [fst snd].
  cbn -[mem Registry.removeEach Registry.tracked].
  rewrite !mem_removeEach. unfold Registry.tracked.
  rewrite !mem_app, !negb_orb, !andb_assoc. reflexivity.
Qed.

(** C1: in [leafletWrapper.js], after [createMap], [addMarker] and
    [clearMap] the marker (layer 4) is still on the map, next to the base
    tile layer (layer 1): [clearMap] removed nothing. *)
Theorem wrapper_clearMap_leaves_marker :
  let s0 := Wrapper.initial Demo.page in
  let s1 := snd (fst (Wrapper.createMap "map" Demo.zero Demo.zero Demo.ten s0)) in
  let r2 := Wrapper.addMarker Demo.zero Demo.zero VUndefined s1 in
  let s3 := snd (fst (Wrapper.clearMap (snd (fst r2)))) in
  fst (fst r2) = Returned (RetHandle 4)
  /\ option_map layers (Wrapper.map s3) = Some [1; 4].
Proof.
  vm_compute. split; reflexivity.
Qed.

(** ** Draw-created subscriptions *)

(** After [map.off(type)] no listener for [type] is left. *)
Lemma listeners_off (m : widget) (e : event) : listeners (off m e) e = [].
Proof.
  unfold listeners, off. simpl.
  induction (handlers m) as [| [e' h] l IH]; simpl; [reflexivity |].
  destruct (event_eqb e' e) eqn:He; simpl; [exact IH |].
  rewrite He. exact IH.
Qed.

(** In [leafletWrapper.js] a successful [initDrawTools] leaves exactly one
    draw-created listener, whatever was registered before. *)
Lemma wrapper_initDrawTools_one_subscription (a b c : value)
    (s : Wrapper.state) (m : widget) :
  Wrapper.map s = Some m ->
  drawLoaded (Wrapper.page s) = true ->
  Wrapper.drawSubscriptions (snd (fst (Wrapper.initDrawTools a b c s))) = 1.
Proof.
  intros Hmap Hload. unfold Wrapper.initDrawTools. rewrite Hmap.
  unfold Wrapper.reset_drawn_items, Wrapper.install_draw_control.
  cbn -[filter]. rewrite Hload. cbn -[filter].
  unfold Wrapper.drawSubscriptions. cbn -[filter].
  unfold listeners. cbn -[filter].
  rewrite filter_app, map_app, length_app.
  match goal with |- context [filter _ (filter _ (handlers ?w))] =>
    change (filter _ (filter _ (handlers w)))
      with (filter (fun eh : event * handler => event_eqb (fst eh) DrawCreated)
              (handlers (off w DrawCreated))) end.
  fold (listeners (off
    match Wrapper.drawControl s with
    | Some ctl =>
        removeControl
          (addLayer (removeLayer m (Wrapper.drawnItems s))
             (next (Wrapper.page s))) (cid ctl)
    | None =>
        addLayer (removeLayer m (Wrapper.drawnItems s)) (next (Wrapper.page s))
    end DrawCreated) DrawCreated).
  rewrite listeners_off. reflexivity.
Qed.

(** C3: in the tracking wrapper, [initDrawTools] registers a draw-created
    listener without dropping the earlier one: after [createMap] and two
    calls of [initDrawTools] two subscriptions are active.  Both run on a
    finished drawing; the group holds the drawing once all the same, as a
    group does not add a layer it already holds. *)
Theorem registry_initDrawTools_accumulates :
  let s0 := Registry.initial Demo.page in
  let s1 := snd (fst (Registry.createMap "map" Demo.zero Demo.zero Demo.ten s0)) in
  let s2 := snd (fst (Registry.initDrawTools VUndefined VUndefined VUndefined s1)) in
  let s3 := snd (fst (Registry.initDrawTools VUndefined VUndefined VUndefined s2)) in
  Registry.drawSubscriptions s2 = 1
  /\ Registry.drawSubscriptions s3 = 2
  /\ match Registry.userDraws Marker [Demo.zero; Demo.zero] s3 with
     | Returned s4 => Registry.drawnLayers s4 = [5]
     | Thrown _ => False
     end.
Proof.
  vm_compute. repeat split; reflexivity.
Qed.

(** ** [fitBounds] *)

Section FitBounds.
Context {rt : Runtime}.


(** Wrong arity is rejected: an error is logged and the state is the same. *)
Lemma fitBounds_wrong_arity (s : Registry.state) (m : widget)
    (r r0 r1 : nat) (a b c : value) (widgetThrows : bool) :
  Registry.map s = Some m ->
  Registry.fitBounds (VArr r [VArr r0 [a; b]; VArr r1 [c]]) widgetThrows s
  = (Returned RetUndefined, s, [ConsoleError "Invalid bounds format"]).
Proof.
  intros Hmap. unfold Registry.fitBounds. rewrite Hmap. reflexivity.
Qed.

(** NaN latitudes are rejected even when both corners carry them, as NaN
    is not strictly equal to itself. *)
Lemma fitBounds_nan_rejected (s : Registry.state) (m : widget)
    (r r0 r1 : nat) (b d : value) (widgetThrows : bool) :
  Registry.map s = Some m ->
  Registry.fitBounds
    (VArr r [VArr r0 [VNum PrimFloat.nan; b]; VArr r1 [VNum PrimFloat.nan; d]])
    widgetThrows s
  = (Returned RetUndefined, s, [ConsoleError "Invalid coordinate values"]).
Proof.
  intros Hmap. unfold Registry.fitBounds. rewrite Hmap. reflexivity.
Qed.

(** [null] coordinates pass both tests, as [isNaN(null)] is false: the
    bounds reach the widget. *)
Lemma fitBounds_null_reaches_widget (s : Registry.state) (m : widget)
    (r r0 r1 : nat) :
  Registry.map s = Some m ->
  let bounds := VArr r [VArr r0 [VNull; VNull];
                        VArr r1 [VNum 1%float; VNum 1%float]] in
  Registry.fitBounds bounds false s
  = (Returned RetUndefined,
     Registry.set_map s (Some (set_view m (Fitted bounds (Some (50, 50))))),
     []).
Proof.
  intros Hmap. cbv zeta. unfold Registry.fitBounds. rewrite Hmap. reflexivity.
Qed.

(** [leafletWrapper.js] hands any bounds to the widget unchecked. *)
Lemma wrapper_fitBounds_unchecked (s : Wrapper.state) (m : widget)
    (bounds : value) :
  Wrapper.map s = Some m ->
  Wrapper.fitBounds bounds false s
  = (Returned RetUndefined,
     Wrapper.set_map s (Some (set_view m (Fitted bounds None))), []).
Proof.
  intros Hmap. unfold Wrapper.fitBounds. rewrite Hmap. reflexivity.
Qed.


End FitBounds.


(** ** Disposal *)

Section Disposal.
Context {rt : Runtime}.

(** What [dispose] leaves: no map, empty tracking lists, no drawn-items
    group, no controls, and the disposed flag set. *)
Lemma dispose_shape (s : Registry.state) :
  exists p, Registry.dispose s
            = (Returned RetUndefined, Registry.disposed p, []).
Proof.
  exists (Registry.page (Registry.state_of (Registry.dispose s))).
  destruct s as [pg [m |] mk ci pg' pl gj di dc mc dis];
    unfold Registry.dispose, Registry.disposed, Registry.state_of;
    cbv beta iota zeta delta
      [Registry.set_isDisposed Registry.set_map Registry.set_page
       Registry.set_markers Registry.set_circles Registry.set_polygons
       Registry.set_polylines Registry.set_geoJsonLayers
       Registry.set_drawnItems Registry.set_drawControl
       Registry.set_miniMapControl Registry.page Registry.map
       Registry.markers Registry.circles Registry.polygons
       Registry.polylines Registry.geoJsonLayers Registry.drawnItems
       Registry.drawControl Registry.miniMapControl Registry.isDisposed
       fst snd];
    reflexivity.
Qed.

Lemma exec_disposed (p : page) (o : Registry.op) :
  Registry.state_of (Registry.exec o (Registry.disposed p))
  = Registry.disposed p
  /\ (Registry.outcome_of (Registry.exec o (Registry.disposed p))
      = Returned RetUndefined
      \/ Registry.outcome_of (Registry.exec o (Registry.disposed p))
         = Returned RetNull).
Proof.
  destruct o; split; try reflexivity; cbn; auto.
Qed.

(** C5: [dispose] returns without throwing, and on the state it leaves
    every call of the wrapper, [dispose] included, returns [undefined] or
    [null] (no handle), throws nothing and leaves the state as it is. *)
Theorem calls_after_dispose_are_noops (s : Registry.state) (o : Registry.op) :
  let d := Registry.state_of (Registry.dispose s) in
  Registry.outcome_of (Registry.dispose s) = Returned RetUndefined
  /\ Registry.state_of (Registry.exec o d) = d
  /\ (Registry.outcome_of (Registry.exec o d) = Returned RetUndefined
      \/ Registry.outcome_of (Registry.exec o d) = Returned RetNull)
  /\ (forall lat lng radius options,
        Registry.addCircle lat lng radius options d
        = (Returned RetUndefined, d, []))
  /\ Registry.dispose d = (Returned RetUndefined, d, []).
Proof.
  destruct (dispose_shape s) as [p Hp]. cbv zeta. rewrite Hp.
  change (Registry.state_of (Returned RetUndefined, Registry.disposed p, []))
    with (Registry.disposed p).
  destruct (exec_disposed p o) as [Hs Ho].
  repeat split; try assumption; try reflexivity.
Qed.

End Disposal.

(** ** Popup templates *)

Section Popup.
Context {rt : Runtime}.
Local Open Scope string_scope.

Lemma starts_with_app (pat post : string) : starts_with pat (pat ++ post) = true.
Proof.
  induction pat as [| c pat IH]; simpl; [reflexivity |].
  rewrite Ascii.eqb_refl. exact IH.
Qed.

Lemma drop_app (pat post : string) : drop (String.length pat) (pat ++ post) = post.
Proof.
  induction pat as [| c pat IH]; simpl; [destruct post; reflexivity | exact IH].
Qed.

Lemma split_first_eq (pat s : string) :
  split_first pat s
  = if starts_with pat s then Some ("", drop (String.length pat) s)
    else match s with
         | "" => None
         | String c s' =>
             match split_first pat s' with
             | Some (before, after) => Some (String c before, after)
             | None => None
             end
         end.
Proof. destruct s; reflexivity. Qed.

(** When [pat] occurs right after [pre] and nowhere earlier, [split_first]
    cuts the text there. *)
Lemma split_first_at (pat pre post : string) :
  (forall k, k < String.length pre ->
             starts_with pat (drop k (pre ++ pat ++ post)) = false) ->
  split_first pat (pre ++ pat ++ post) = Some (pre, post).
Proof.
  induction pre as [| c pre IH]; intros Hno.
  - rewrite split_first_eq. cbn [append].
    rewrite starts_with_app, drop_app. reflexivity.
  - rewrite split_first_eq.
    assert (H0 : starts_with pat (String c pre ++ pat ++ post) = false).
    { apply (Hno 0). simpl. lia. }
    rewrite H0. cbn [append]. rewrite IH; [reflexivity |].
    intros k Hk. apply (Hno (S k)). simpl. lia.
Qed.

(** A replacement without a dollar sign is inserted as it is. *)
Lemma GetSubstitution_plain (matched before after replacement : string) :
  (forall k, String.get k replacement <> Some "$"%char) ->
  GetSubstitution matched before after replacement = replacement.
Proof.
  induction replacement as [| c r IH]; intros Hno; [reflexivity |].
  cbn [GetSubstitution]. destruct r as [| d r'].
  - reflexivity.
  - destruct (Ascii.eqb c "$") eqn:Hc.
    + apply Ascii.eqb_eq in Hc. subst c. exfalso. apply (Hno 0). reflexivity.
    + f_equal. apply IH. intros k. apply (Hno (S k)).
Qed.

(** C10: when the placeholder of the first property visited occurs in the
    template right after [pre] and nowhere earlier, the loop replaces that
    occurrence alone and goes on with the text [post] behind it unchanged,
    later occurrences of the same placeholder included. *)
Theorem popupContent_replaces_first_occurrence (pre post p : string)
    (v : value) (rest : list (string * value)) :
  (forall k, k < String.length pre ->
             starts_with ("{" ++ p ++ "}")
               (drop k (pre ++ ("{" ++ p ++ "}") ++ post)) = false) ->
  Wrapper.popupContent (VStr (pre ++ ("{" ++ p ++ "}") ++ post))
    ((p, v) :: rest)
  = Wrapper.popupContent
      (VStr (pre ++ GetSubstitution ("{" ++ p ++ "}") pre post (ToString v)
                 ++ post))
      rest.
Proof.
  intros Hno. cbn [Wrapper.popupContent Wrapper.substitute fst snd].
  unfold replace. rewrite (split_first_at _ _ _ Hno). reflexivity.
Qed.

End Popup.

(** The template [Hi {name} and {name}] with the property [name = Bob]
    becomes [Hi Bob and {name}]. *)
Lemma popupContent_replaces_first_occurrence_witness :
  @Wrapper.popupContent Demo.runtime (VStr "Hi {name} and {name}")
    [("name"%string, VStr "Bob")]
  = Returned (VStr "Hi Bob and {name}").
Proof.
  apply (@popupContent_replaces_first_occurrence Demo.runtime
           "Hi " " and {name}" "name" (VStr "Bob") []).
  intros k Hk.
  destruct k as [| [| [| k]]]; [reflexivity | reflexivity | reflexivity |].
  simpl in Hk. lia.
Defined.

(** ** Drawn items: export and re-import *)

Section Heap.

Lemma find_layer_app (i : nat) (h1 h2 : list layer) :
  find_layer i (h1 ++ h2)
  = match find_layer i h1 with
    | Some l => Some l
    | None => find_layer i h2
    end.
Proof.
  induction h1 as [| l h1 IH]; simpl; [reflexivity |].
  destruct (Nat.eqb (lid l) i); [reflexivity | exact IH].
Qed.

Lemma find_layer_below (n i : nat) (h : list layer) :
  ids_below n h -> n <= i -> find_layer i h = None.
Proof.
  intros Hb Hi. induction Hb as [| l h Hl Hb IH]; simpl; [reflexivity |].
  destruct (Nat.eqb_spec (lid l) i) as [E | E]; [lia | exact IH].
Qed.

Lemma find_layer_lid (i : nat) (h : list layer) (l : layer) :
  find_layer i h = Some l -> lid l = i.
Proof.
  induction h as [| x h IH]; simpl; [discriminate |].
  destruct (Nat.eqb_spec (lid x) i) as [E | E].
  - intros [= <-]. exact E.
  - exact IH.
Qed.

Lemma find_layer_update (g i : nat) (f : list nat -> list nat)
    (h : list layer) :
  find_layer i (update_layer g (with_members f) h)
  = if Nat.eqb i g then option_map (with_members f) (find_layer g h)
    else find_layer i h.
Proof.
  induction h as [| l h IH]; simpl.
  - destruct (Nat.eqb i g); reflexivity.
  - destruct (Nat.eqb_spec (lid l) g) as [E | E]; simpl.
    + destruct (Nat.eqb_spec i g) as [E' | E'].
      * subst i. rewrite <- E, Nat.eqb_refl. reflexivity.
      * destruct (Nat.eqb_spec (lid l) i) as [E2 | E2]; [lia | reflexivity].
    + destruct (Nat.eqb_spec (lid l) i) as [E2 | E2].
      * destruct (Nat.eqb_spec i g) as [E' | E']; [lia | reflexivity].
      * exact IH.
Qed.



(** Members after [set_members]. *)
Lemma members_set_members (p : page) (g g' : nat) (f : list nat -> list nat) :
  find_layer g (heap p) <> None ->
  members (set_members p g f) g'
  = if Nat.eqb g' g then f (members p g) else members p g'.
Proof.
  intros Hg. unfold members, set_members. simpl.
  rewrite find_layer_update.
  destruct (Nat.eqb g' g); [| reflexivity].
  destruct (find_layer g (heap p)); [reflexivity | contradiction].
Qed.





(** The tracking wrapper builds the GeoJSON layer without a callback: the
    new layers get the next identities in order. *)
Lemma import_plain (fs : list feature) :
  forall p,
  exists p' hnew,
    geoJSON_members p fs no_callback
    = Returned (seq (next p) (List.length fs), p')
    /\ next p' = next p + List.length fs
    /\ heap p' = heap p ++ hnew
    /\ ids_below (next p') hnew.
Proof.
  induction fs as [| f fs IH]; intros p.
  - exists p, []. simpl. rewrite Nat.add_0_r, app_nil_r.
    repeat split. constructor.
  - cbn [geoJSON_members new_layer no_callback].
    match goal with |- context [geoJSON_members ?q fs no_callback] =>
      destruct (IH q) as (p' & hnew & Hrun & Hn & Hh & Hb) end.
    rewrite Hrun. simpl in Hn, Hh. simpl.
    eexists p', (_ :: hnew). repeat split.
    + rewrite Hn. lia.
    + rewrite Hh, <- app_assoc. reflexivity.
    + constructor; [simpl; lia | exact Hb].
Qed.



End Heap.





(** ** Adding overlays, then [clearMap], in the tracking wrapper *)

Section AddThenClear.
Context {rt : Runtime}.

Lemma mem_add_id (i j : nat) (l : list nat) :
  mem i l = true -> mem i (add_id j l) = true.
Proof.
  intros H. unfold add_id. destruct (mem j l); [exact H |].
  rewrite mem_app, H. reflexivity.
Qed.

Lemma mem_In (i : nat) (l : list nat) : mem i l = true <-> In i l.
Proof.
  unfold mem. rewrite existsb_exists. split.
  - intros (x & Hx & E). apply Nat.eqb_eq in E. subst x. exact Hx.
  - intros H. exists i. split; [exact H | apply Nat.eqb_refl].
Qed.

Ltac tracked_cases H :=
  unfold Registry.tracked in *; simpl in H;
  repeat rewrite in_app_iff in H; repeat rewrite in_app_iff;
  simpl in H; intuition (subst; auto with arith).

(** One add call: the map stays, what was on it stays on it, and the only
    new tracked identity is a fresh one. *)
Lemma add_step (o : Registry.op) (s : Registry.state) (m : widget) :
  Registry.is_add o = true ->
  Registry.map s = Some m ->
  let s' := Registry.state_of (Registry.exec o s) in
  (exists m', Registry.map s' = Some m'
              /\ forall i, mem i (layers m) = true -> mem i (layers m') = true)
  /\ next (Registry.page s) <= next (Registry.page s')
  /\ (forall i, In i (Registry.tracked s') ->
                In i (Registry.tracked s) \/ next (Registry.page s) <= i).
Proof.
  intros Hadd Hmap. destruct o; try discriminate Hadd; cbv zeta;
    unfold Registry.exec, Registry.state_of.
  - unfold Registry.addMarker. rewrite Hmap. cbn [new_layer fst snd].
    split; [| split].
    + eexists. split; [reflexivity |]. intros i Hi. simpl.
      apply mem_add_id. exact Hi.
    + destruct (truthy popupText); simpl; lia.
    + intros i Hi. tracked_cases Hi.
  - unfold Registry.addCircle. rewrite Hmap. cbn [new_layer fst snd].
    split; [| split].
    + eexists. split; [reflexivity |]. intros i Hi. simpl.
      apply mem_add_id. exact Hi.
    + simpl; lia.
    + intros i Hi. tracked_cases Hi.
  - unfold Registry.addPolygon. rewrite Hmap. cbn [new_layer fst snd].
    split; [| split].
    + eexists. split; [reflexivity |]. intros i Hi. simpl.
      apply mem_add_id. exact Hi.
    + simpl; lia.
    + intros i Hi. tracked_cases Hi.
  - unfold Registry.addPolyline. rewrite Hmap. cbn [new_layer fst snd].
    split; [| split].
    + eexists. split; [reflexivity |]. intros i Hi. simpl.
      apply mem_add_id. exact Hi.
    + simpl; lia.
    + intros i Hi. tracked_cases Hi.
  - unfold Registry.addGeoJson, geoJSON. rewrite Hmap.
    destruct (import_plain (features_of geoJson) (Registry.page s))
      as (p' & hnew & Hrun & Hn & _ & _).
    rewrite Hrun. cbn [new_layer fst snd].
    split; [| split].
    + eexists. split; [reflexivity |]. intros i Hi. simpl.
      apply mem_add_id. exact Hi.
    + simpl; lia.
    + intros i Hi. tracked_cases Hi. right. lia.
Qed.

Lemma add_steps (os : list Registry.op) :
  forall (s : Registry.state) (m : widget),
  Forall (fun o => Registry.is_add o = true) os ->
  Registry.map s = Some m ->
  (exists m', Registry.map (Registry.run os s) = Some m'
              /\ forall i, mem i (layers m) = true -> mem i (layers m') = true)
  /\ (forall i, In i (Registry.tracked (Registry.run os s)) ->
                In i (Registry.tracked s) \/ next (Registry.page s) <= i).
Proof.
  induction os as [| o os IH]; intros s m Hall Hmap.
  - simpl. split; [exists m; auto | auto].
  - inversion Hall as [| o' os' Ho Hos]; subst.
    destruct (add_step o s m Ho Hmap) as ((m1 & Hm1 & Hkeep1) & Hn & Ht).
    destruct (IH _ m1 Hos Hm1) as ((m2 & Hm2 & Hkeep2) & Ht2).
    unfold Registry.run in *. simpl. split.
    + exists m2. split; [exact Hm2 | auto].
    + intros i Hi. destruct (Ht2 i Hi) as [H | H].
      * apply Ht. exact H.
      * right. lia.
Qed.

(** From a state with the map created, after any sequence of add calls and
    [clearMap]: the tracking lists are empty, no overlay that was tracked is
    on the map, and a layer that was on the map at the start and was not
    tracked, such as the base tile layer, is still on it. *)
Lemma registry_adds_then_clearMap (os : list Registry.op)
    (s : Registry.state) (m : widget) :
  Forall (fun o => Registry.is_add o = true) os ->
  Registry.map s = Some m ->
  let s1 := Registry.run os s in
  let s2 := snd (fst (Registry.clearMap s1)) in
  Registry.tracked s2 = []
  /\ (forall i, In i (Registry.tracked s1) -> Registry.on_map i s2 = false)
  /\ (forall i, Registry.on_map i s = true -> i < next (Registry.page s) ->
                ~ In i (Registry.tracked s) -> Registry.on_map i s2 = true).
Proof.
  intros Hall Hmap. cbv zeta.
  destruct (add_steps os s m Hall Hmap) as ((m1 & Hm1 & Hkeep) & Ht).
  split; [| split].
  - apply (registry_clearMap_clears _ m1 0 Hm1).
  - intros i Hi.
    destruct (registry_clearMap_clears _ m1 i Hm1) as [_ Hon]. rewrite Hon.
    apply mem_In in Hi. rewrite Hi. apply andb_false_r.
  - intros i Hon Hlt Hnot.
    destruct (registry_clearMap_clears _ m1 i Hm1) as [_ Hon2]. rewrite Hon2.
    unfold Registry.on_map in Hon |- *. rewrite Hmap in Hon. rewrite Hm1.
    rewrite (Hkeep i Hon). simpl.
    destruct (mem i (Registry.tracked (Registry.run os s))) eqn:E;
      [| reflexivity].
    apply mem_In in E. destruct (Ht i E) as [H | H]; [contradiction | lia].
Qed.

End AddThenClear.

(** * Further properties of the code *)

(** ** Bearing along a meridian and along the equator; midpoint *)

Section Compass.
Local Open Scope R_scope.








End Compass.

(** ** The timeline animation *)

Section TimelineFacts.
Import Timeline.

Lemma length_set_at (i : nat) (v : float) (l : list float) :
  List.length (set_at i v l) = List.length l.
Proof.
  revert i. induction l as [| x l IH]; intros [| i]; simpl; auto.
Qed.

Lemma set_at_twice (i : nat) (v w : float) (l : list float) :
  set_at i v (set_at i w l) = set_at i v l.
Proof.
  revert i. induction l as [| x l IH]; intros [| i]; simpl; auto.
  rewrite IH. reflexivity.
Qed.

Lemma set_at_repeat (i n : nat) (v : float) :
  set_at i v (repeat v n) = repeat v n.
Proof.
  revert i. induction n as [| n IH]; intros [| i]; simpl; auto.
  rewrite IH. reflexivity.
Qed.

Lemma run_app (es es' : list event) (s : state) :
  run (es ++ es') s
  = match run es s with
    | Thrown err => Thrown err
    | Returned s1 => run es' s1
    end.
Proof.
  revert s. induction es as [| e es IH]; intros s; simpl; [reflexivity |].
  destruct (step e s); [apply IH | reflexivity].
Qed.

Lemma animateNext_inv (s : state) :
  currentIndex s <= List.length (opacity s) ->
  exists s', animateNext s = Returned s'
             /\ currentIndex s' <= List.length (opacity s')
             /\ List.length (opacity s') = List.length (opacity s).
Proof.
  intros Hinv. unfold animateNext, setOpacity.
  destruct (Nat.ltb_spec 0 (currentIndex s)) as [Hpos | Hzero].
  - destruct (Nat.ltb_spec (currentIndex s - 1) (List.length (opacity s)))
      as [H1 | H1]; [| lia].
    cbn [currentIndex opacity]. rewrite !length_set_at.
    destruct (Nat.ltb_spec (currentIndex s) (List.length (opacity s)))
      as [H2 | H2].
    + eexists. split; [reflexivity |]. simpl. rewrite !length_set_at.
      split; [lia | reflexivity].
    + eexists. split; [reflexivity |]. simpl. rewrite length_set_at.
      split; [lia | reflexivity].
  - destruct (Nat.ltb_spec (currentIndex s) (List.length (opacity s)))
      as [H2 | H2].
    + eexists. split; [reflexivity |]. simpl. rewrite !length_set_at.
      split; [lia | reflexivity].
    + eexists. split; [reflexivity |]. split; [lia | reflexivity].
Qed.

Lemma step_inv (e : event) (s : state) :
  currentIndex s <= List.length (opacity s) ->
  exists s', step e s = Returned s'
             /\ currentIndex s' <= List.length (opacity s')
             /\ List.length (opacity s') = List.length (opacity s).
Proof.
  intros Hinv. destruct e; simpl.
  - apply animateNext_inv. exact Hinv.
  - eexists. split; [reflexivity |]. simpl. split; [lia | reflexivity].
  - eexists. split; [reflexivity |]. simpl. rewrite length_map.
    split; [lia | reflexivity].
  - unfold tick. destruct (pending s) as [| n].
    + eexists. split; [reflexivity |]. split; [lia | reflexivity].
    + apply (animateNext_inv
               {| currentIndex := currentIndex s; opacity := opacity s;
                  opened := opened s; pending := n |}).
      exact Hinv.
Qed.

(** Whatever the order of [start], [stop], [reset] and timer firings, the
    controller never throws, [currentIndex] stays within the number of
    markers, and no marker is added or lost. *)
Theorem timeline_never_throws (points : nat) (es : list event) :
  exists s, run es (initial points) = Returned s
            /\ currentIndex s <= points
            /\ List.length (opacity s) = points.
Proof.
  assert (H : forall es s, currentIndex s <= List.length (opacity s) ->
              exists s', run es s = Returned s'
                         /\ currentIndex s' <= List.length (opacity s')
                         /\ List.length (opacity s')
                            = List.length (opacity s)).
  { clear es. induction es as [| e es IH]; intros s Hinv; simpl.
    - exists s. auto.
    - destruct (step_inv e s Hinv) as (s1 & Hs1 & Hinv1 & Hlen1).
      rewrite Hs1. destruct (IH s1 Hinv1) as (s2 & Hs2 & Hinv2 & Hlen2).
      exists s2. repeat split; try assumption. lia. }
  destruct (H es (initial points)) as (s & Hs & Hinv & Hlen).
  - simpl. lia.
  - simpl in Hlen. rewrite repeat_length in Hlen.
    exists s. repeat split; try assumption. lia.
Qed.

Lemma animateNext_first (op : list float) (o : list nat) (p : nat) :
  0 < List.length op ->
  animateNext {| currentIndex := 0; opacity := op; opened := o;
                 pending := p |}
  = Returned {| currentIndex := 1; opacity := set_at 0 full op;
                opened := o ++ [0]; pending := S p |}.
Proof.
  intros Hn. unfold animateNext, setOpacity.
  cbn [currentIndex opacity opened pending].
  rewrite Nat.ltb_irrefl.
  cbn [currentIndex opacity opened pending].
  destruct (Nat.ltb_spec 0 (List.length op)) as [H | H]; [| lia].
  reflexivity.
Qed.

Lemma animateNext_advance (c : nat) (op : list float) (o : list nat)
    (p : nat) :
  S c < List.length op ->
  animateNext {| currentIndex := S c; opacity := op; opened := o;
                 pending := p |}
  = Returned {| currentIndex := S (S c);
                opacity := set_at (S c) full (set_at c dim op);
                opened := o ++ [S c]; pending := S p |}.
Proof.
  intros Hn. unfold animateNext, setOpacity.
  cbn [currentIndex opacity opened pending].
  destruct (Nat.ltb_spec 0 (S c)) as [H0 | H0]; [| lia].
  replace (S c - 1) with c by lia.
  destruct (Nat.ltb_spec c (List.length op)) as [H1 | H1]; [| lia].
  cbn [currentIndex opacity opened pending]. rewrite length_set_at.
  destruct (Nat.ltb_spec (S c) (List.length op)) as [H2 | H2]; [| lia].
  reflexivity.
Qed.

Lemma animateNext_end (c : nat) (op : list float) (o : list nat) (p : nat) :
  S c = List.length op ->
  animateNext {| currentIndex := S c; opacity := op; opened := o;
                 pending := p |}
  = Returned {| currentIndex := S c; opacity := set_at c dim op;
                opened := o; pending := p |}.
Proof.
  intros Hn. unfold animateNext, setOpacity.
  cbn [currentIndex opacity opened pending].
  destruct (Nat.ltb_spec 0 (S c)) as [H0 | H0]; [| lia].
  replace (S c - 1) with c by lia.
  destruct (Nat.ltb_spec c (List.length op)) as [H1 | H1]; [| lia].
  cbn [currentIndex opacity opened pending]. rewrite length_set_at.
  destruct (Nat.ltb_spec (S c) (List.length op)) as [H2 | H2]; [lia |].
  reflexivity.
Qed.

(** While the animation plays: after [start] and [k] timer firings, with
    [k] below the number of markers, marker [k] alone is highlighted, the
    popups of the markers 0 to [k] were opened in order, and one timer is
    pending. *)
Lemma timeline_playing (points k : nat) :
  k < points ->
  run (Start :: repeat Tick k) (initial points)
  = Returned {| currentIndex := S k;
                opacity := set_at k full (repeat dim points);
                opened := seq 0 (S k); pending := 1 |}.
Proof.
  induction k as [| k IH]; intros Hk.
  - cbn [repeat run step]. unfold start, initial.
    rewrite animateNext_first by (rewrite repeat_length; lia).
    reflexivity.
  - change (repeat Tick (S k)) with (Tick :: repeat Tick k).
    rewrite repeat_cons, app_comm_cons, run_app.
    rewrite IH by lia. cbn [run step tick pending currentIndex opacity opened].
    rewrite animateNext_advance
      by (rewrite length_set_at, repeat_length; lia).
    rewrite set_at_twice, set_at_repeat, <- seq_S. reflexivity.
Qed.

(** A whole run: [start] followed by as many timer firings as there are
    markers opens the popup of each marker once, in order, and ends with
    every marker dimmed, [currentIndex] at the end and no timer pending. *)
Theorem timeline_full_run (points : nat) :
  run (Start :: repeat Tick points) (initial points)
  = Returned {| currentIndex := points; opacity := repeat dim points;
                opened := seq 0 points; pending := 0 |}.
Proof.
  destruct points as [| k]; [reflexivity |].
  change (repeat Tick (S k)) with (Tick :: repeat Tick k).
  rewrite repeat_cons, app_comm_cons, run_app.
  rewrite timeline_playing by lia.
  cbn [run step tick pending currentIndex opacity opened].
  rewrite animateNext_end by (rewrite length_set_at, repeat_length; lia).
  rewrite set_at_twice, set_at_repeat. reflexivity.
Qed.

(** After [stop], neither [start] nor a timer that was still pending opens
    a popup or schedules a timer: the animation stays stopped until
    [reset]. *)
Theorem timeline_stop_is_final (s : state) :
  (exists s', run [Stop; Start] s = Returned s'
              /\ currentIndex s' = List.length (opacity s)
              /\ opened s' = opened s /\ pending s' = pending s)
  /\ (exists s', run [Stop; Tick] s = Returned s'
                 /\ currentIndex s' = List.length (opacity s)
                 /\ opened s' = opened s
                 /\ pending s' = pending s - 1).
Proof.
  destruct s as [c op o p]. unfold run, step, stop, start, tick.
  cbn [currentIndex opacity opened pending].
  destruct (List.length op) as [| n] eqn:Hn.
  - assert (Hend : forall q,
              animateNext {| currentIndex := 0; opacity := op; opened := o;
                             pending := q |}
              = Returned {| currentIndex := 0; opacity := op; opened := o;
                            pending := q |}).
    { intros q. destruct op; [reflexivity | discriminate Hn]. }
    split.
    + rewrite Hend. eexists. split; [reflexivity |]. auto.
    + destruct p as [| q].
      * eexists. split; [reflexivity |]. auto.
      * rewrite Hend. eexists. split; [reflexivity |]. simpl.
        repeat split. lia.
  - split.
    + rewrite animateNext_end by (symmetry; exact Hn).
      eexists. split; [reflexivity |]. auto.
    + destruct p as [| q].
      * eexists. split; [reflexivity |]. auto.
      * rewrite animateNext_end by (symmetry; exact Hn).
        eexists. split; [reflexivity |]. simpl. repeat split. lia.
Qed.

(** [reset] cancels no timer: when one is pending, its firing after
    [reset] starts the animation again at the first marker. *)
Theorem timeline_reset_restarts (s : state) :
  0 < List.length (opacity s) ->
  0 < pending s ->
  exists s', run [Reset; Tick] s = Returned s'
             /\ currentIndex s' = 1
             /\ opened s' = opened s ++ [0]
             /\ pending s' = pending s
             /\ opacity s' = full :: repeat dim (List.length (opacity s) - 1).
Proof.
  destruct s as [c op o p]. cbn [currentIndex opacity opened pending].
  intros Hn Hp. destruct p as [| q]; [lia |].
  unfold run, step, reset, tick.
  cbn [currentIndex opacity opened pending].
  rewrite animateNext_first by (rewrite length_map; exact Hn).
  eexists. split; [reflexivity |]. cbn [currentIndex opacity opened pending].
  repeat split.
  destruct op as [| x op]; [simpl in Hn; lia |].
  simpl. rewrite Nat.sub_0_r. f_equal.
  clear. induction op as [| y op IH]; simpl; [reflexivity |].
  rewrite IH. reflexivity.
Qed.

End TimelineFacts.

Lemma timeline_reset_restarts_witness :
  exists s', Timeline.run [Timeline.Start; Timeline.Reset; Timeline.Tick]
               (Timeline.initial 2) = Returned s'
             /\ Timeline.opened s' = [0; 0].
Proof.
  destruct (timeline_reset_restarts
              {| Timeline.currentIndex := 1;
                 Timeline.opacity := [Timeline.full; Timeline.dim];
                 Timeline.opened := [0]; Timeline.pending := 1 |})
    as (s' & Hrun & _ & Hopened & _).
  - simpl. lia.
  - simpl. lia.
  - exists s'. split; [exact Hrun | exact Hopened].
Defined.

(** ** The tracking wrapper: handles, re-creation, drawing tools *)

Section RegistryFacts.
Context {rt : Runtime}.

Lemma mem_add_id_self (i : nat) (l : list nat) : mem i (add_id i l) = true.
Proof.
  unfold add_id. destruct (mem i l) eqn:E; [exact E |].
  rewrite mem_app. simpl. rewrite Nat.eqb_refl. apply orb_true_r.
Qed.



(** As long as neither [initDrawTools], [initDrawToolsAdvanced] nor
    [updateDrawToolsStyle] has been called, there is no drawn-items group:
    [getDrawnGeoJson] returns [null], and [addDrawnFromGeoJson] and
    [clearAllDrawn] return without any effect. *)
Theorem no_drawn_items_before_init (p : page) (os : list Registry.op)
    (data : geojson) :
  Forall (fun o => match o with
                   | Registry.InitDrawTools _ _ _
                   | Registry.InitDrawToolsAdvanced _
                   | Registry.UpdateDrawToolsStyle _ _ _ _ => False
                   | _ => True
                   end) os ->
  let s := Registry.run os (Registry.initial p) in
  Registry.getDrawnGeoJson s = (Returned RetNull, s, [])
  /\ Registry.addDrawnFromGeoJson data s = (Returned RetUndefined, s, [])
  /\ Registry.clearAllDrawn s = (Returned RetUndefined, s, []).
Proof.
  intros Hos. cbv zeta.
  assert (Hnone : Registry.drawnItems (Registry.run os (Registry.initial p))
                  = None).
  { assert (H : forall s, Registry.drawnItems s = None ->
                  Registry.drawnItems (Registry.run os s) = None).
    { induction Hos as [| o os Ho Hos IH]; intros s Hs; [exact Hs |].
      unfold Registry.run in *. simpl. apply IH.
      destruct o; try contradiction; unfold Registry.exec, Registry.state_of.
      - unfold Registry.createMap.
        destruct (Registry.isDisposed s); [exact Hs |].
        destruct (Registry.map s) as [m |];
          (destruct (new_map _ elementId) as [[m1 p1] | e]; exact Hs).
      - unfold Registry.addMarker.
        destruct (Registry.map s); [| exact Hs].
        cbn [new_layer]. destruct (truthy popupText); exact Hs.
      - unfold Registry.addCircle.
        destruct (Registry.map s); exact Hs.
      - unfold Registry.addPolygon.
        destruct (Registry.map s); exact Hs.
      - unfold Registry.addPolyline.
        destruct (Registry.map s); exact Hs.
      - unfold Registry.addGeoJson.
        destruct (Registry.map s); [| exact Hs].
        destruct (geoJSON _ _ _ _) as [[l p1] | e]; exact Hs.
      - unfold Registry.addGeoJsonWithPopup.
        destruct (Registry.map s); [| exact Hs].
        destruct (geoJSON _ _ _ _) as [[l p1] | e]; exact Hs.
      - unfold Registry.clearMap.
        destruct (Registry.map s); exact Hs.
      - unfold Registry.setView.
        destruct (Registry.map s); exact Hs.
      - unfold Registry.fitBounds.
        destruct (Registry.map s); [| exact Hs].
        match goal with |- context [if ?c then _ else _] => destruct c end;
          [exact Hs |].
        destruct bounds as [| | | | | r [| [| | | | | r0 [| a [| b [|]]] |]
          [| [| | | | | r1 [| c [| d [|]]] |] [|]]] |]; try exact Hs.
        repeat match goal with
               | |- context [if ?c then _ else _] => destruct c
               end; exact Hs.
      - unfold Registry.enableDrawing.
        destruct (Registry.drawControl s); [| exact Hs].
        destruct (Registry.map s); exact Hs.
      - unfold Registry.disableDrawing.
        destruct (Registry.drawControl s); [| exact Hs].
        destruct (Registry.map s); exact Hs.
      - unfold Registry.clearAllDrawn. rewrite Hs. exact Hs.
      - unfold Registry.getDrawnGeoJson. rewrite Hs. exact Hs.
      - unfold Registry.addDrawnFromGeoJson. rewrite Hs. exact Hs.
      - unfold Registry.addMiniMap.
        destruct (Registry.map s); [| exact Hs].
        destruct (negb (miniMapLoaded (Registry.page s))); [exact Hs |].
        cbn [new_layer]. destruct options; exact Hs.
      - unfold Registry.removeMiniMap.
        destruct (Registry.miniMapControl s); [| exact Hs].
        destruct (Registry.map s); exact Hs.
      - unfold Registry.toggleMiniMap.
        destruct (Registry.miniMapControl s); exact Hs.
      - unfold Registry.setupMapClick.
        destruct (Registry.map s); [| exact Hs].
        destruct (Registry.isDisposed s); exact Hs.
      - unfold Registry.dispose. reflexivity. }
    apply H. reflexivity. }
  unfold Registry.getDrawnGeoJson, Registry.addDrawnFromGeoJson,
    Registry.clearAllDrawn.
  rewrite Hnone. repeat split.
Qed.

Lemma mem_other (i j : nat) (l : list nat) :
  mem i l = true -> mem i (remove_id j l ++ [j]) = true.
Proof.
  intros H. rewrite mem_app, mem_remove_id, H. simpl.
  destruct (Nat.eqb i j); reflexivity.
Qed.

(** A second [initDrawTools] in the tracking wrapper takes nothing off the
    map: the old drawn-items group and the old draw control stay on it,
    beside the new ones.  [drawnItems] now refers to a new, empty group, so
    the shapes drawn before are still shown but no longer exported. *)
Theorem registry_reinit_leaves_old_tools (a b c : value) (s : Registry.state)
    (m : widget) (g : nat) (ctl : control) :
  Registry.map s = Some m ->
  drawLoaded (Registry.page s) = true ->
  ids_below (next (Registry.page s)) (heap (Registry.page s)) ->
  Registry.drawnItems s = Some g ->
  Registry.drawControl s = Some ctl ->
  mem g (layers m) = true ->
  mem (cid ctl) (controls m) = true ->
  exists s' m' ctl',
    Registry.initDrawTools a b c s = (Returned RetUndefined, s', [])
    /\ Registry.map s' = Some m'
    /\ mem g (layers m') = true
    /\ mem (cid ctl) (controls m') = true
    /\ Registry.drawControl s' = Some ctl'
    /\ mem (cid ctl') (controls m') = true
    /\ Registry.drawnItems s' = Some (next (Registry.page s))
    /\ mem (next (Registry.page s)) (layers m') = true
    /\ Registry.drawnLayers s' = []
    /\ Registry.drawSubscriptions s' = S (Registry.drawSubscriptions s).
Proof.
  intros Hmap Hload Hbelow Hdi Hdc Hg Hc. unfold Registry.initDrawTools.
  rewrite Hmap, Hload.
  cbn [negb new_layer Registry.new_control fresh fst snd cid].
  do 3 eexists. split; [reflexivity |].
  cbn [Registry.map Registry.set_map Registry.set_page Registry.set_drawControl
       Registry.set_drawnItems Registry.drawControl Registry.drawnItems
       Registry.page].
  split; [reflexivity |].
  split; [simpl; apply mem_add_id; exact Hg |].
  split; [simpl; apply mem_other; exact Hc |].
  split; [reflexivity |].
  split.
  { simpl. rewrite mem_app. simpl. rewrite Nat.eqb_refl. apply orb_true_r. }
  split; [reflexivity |].
  split; [simpl; apply mem_add_id_self |].
  split.
  - unfold Registry.drawnLayers, members.
    cbn -[find_layer]. rewrite find_layer_app.
    rewrite (find_layer_below _ _ _ Hbelow) by lia.
    simpl. rewrite Nat.eqb_refl. reflexivity.
  - unfold Registry.drawSubscriptions, listeners. rewrite Hmap.
    cbn -[filter]. rewrite filter_app, map_app, length_app. simpl. lia.
Qed.

(** [initDrawToolsAdvanced] called without options (or with [null]) in the
    tracking wrapper throws a [TypeError] to the host, and by then
    [drawnItems] already refers to a new, empty group on the map; the draw
    control and the subscriptions are as before. *)
Theorem registry_initDrawToolsAdvanced_without_options
    (options : value) (s : Registry.state) (m : widget) :
  options = VUndefined \/ options = VNull ->
  Registry.map s = Some m ->
  ids_below (next (Registry.page s)) (heap (Registry.page s)) ->
  exists e s',
    Registry.initDrawToolsAdvanced options s = (Thrown e, s', [])
    /\ Registry.drawnItems s' = Some (next (Registry.page s))
    /\ Registry.drawnLayers s' = []
    /\ Registry.on_map (next (Registry.page s)) s' = true
    /\ Registry.drawControl s' = Registry.drawControl s
    /\ Registry.drawSubscriptions s' = Registry.drawSubscriptions s.
Proof.
  intros Hopt Hmap Hbelow. unfold Registry.initDrawToolsAdvanced.
  rewrite Hmap. cbn [new_layer].
  assert (Hthrow : Registry.get_prop options "position"
                   = Thrown (TypeError "Cannot read properties of undefined")).
  { destruct Hopt; subst options; reflexivity. }
  rewrite Hthrow. do 2 eexists. split; [reflexivity |].
  split; [reflexivity |]. split.
  - unfold Registry.drawnLayers, members.
    cbn -[find_layer]. rewrite find_layer_app.
    rewrite (find_layer_below _ _ _ Hbelow) by lia.
    simpl. rewrite Nat.eqb_refl. reflexivity.
  - split; [unfold Registry.on_map; simpl; apply mem_add_id_self |].
    split; [reflexivity |].
    unfold Registry.drawSubscriptions. rewrite Hmap. reflexivity.
Qed.

(** Each [setupMapClick] on a live map registers one more click listener
    and drops none: after two calls the host is invoked twice for every
    click.  The draw-created listeners are not affected. *)
Theorem registry_setupMapClick_accumulates (dotNetReference : nat)
    (s : Registry.state) (m : widget) :
  Registry.map s = Some m ->
  Registry.isDisposed s = false ->
  exists m',
    Registry.map (snd (fst (Registry.setupMapClick dotNetReference s)))
    = Some m'
    /\ listeners m' Click
       = listeners m Click
         ++ [InvokeHost dotNetReference "HandleMapClick"]
    /\ listeners m' DrawCreated = listeners m DrawCreated.
Proof.
  intros Hmap Hdis. unfold Registry.setupMapClick. rewrite Hmap, Hdis.
  eexists. split; [reflexivity |].
  unfold listeners, on. cbn [handlers set_handlers].
  rewrite !filter_app, !map_app. simpl. rewrite app_nil_r. auto.
Qed.

(** [clearAllDrawn] empties the drawn-items group in place: the group, the
    map, the draw control and the subscriptions are the same, and
    [getDrawnGeoJson] afterwards returns a feature collection without
    features. *)
Theorem registry_clearAllDrawn_then_export (s : Registry.state) (g : nat) :
  Registry.drawnItems s = Some g ->
  find_layer g (heap (Registry.page s)) <> None ->
  let s' := snd (fst (Registry.clearAllDrawn s)) in
  Registry.drawnItems s' = Some g
  /\ Registry.drawnLayers s' = []
  /\ Registry.map s' = Registry.map s
  /\ Registry.drawControl s' = Registry.drawControl s
  /\ Registry.getDrawnGeoJson s'
     = (Returned (RetText (FeatureCollection [])), s', []).
Proof.
  intros Hdi Hg. cbv zeta. unfold Registry.clearAllDrawn. rewrite Hdi.
  cbn [fst snd].
  assert (Hm : members (group_clearLayers (Registry.page s) g) g = []).
  { unfold group_clearLayers. rewrite members_set_members by exact Hg.
    rewrite Nat.eqb_refl. reflexivity. }
  split; [exact Hdi |]. split.
  - unfold Registry.drawnLayers.
    cbn [Registry.drawnItems Registry.set_page Registry.page].
    rewrite Hdi. exact Hm.
  - split; [reflexivity |]. split; [reflexivity |].
    unfold Registry.getDrawnGeoJson.
    cbn [Registry.drawnItems Registry.set_page Registry.page].
    rewrite Hdi. unfold group_toGeoJSON. rewrite Hm. reflexivity.
Qed.

(** [addMiniMap] in the tracking wrapper does not remove a mini-map that is
    already there: after a second [addMiniMap] the first control is still on
    the map, and [removeMiniMap] takes off the second one only. *)
Theorem registry_second_miniMap_leaks (url : string) (options : value)
    (s : Registry.state) (m : widget) (first : control) :
  Registry.map s = Some m ->
  miniMapLoaded (Registry.page s) = true ->
  options <> VNull ->
  Registry.miniMapControl s = Some first ->
  mem (cid first) (controls m) = true ->
  cid first <= next (Registry.page s) ->
  let s1 := snd (fst (Registry.addMiniMap url options s)) in
  let s2 := snd (fst (Registry.removeMiniMap s1)) in
  exists m2,
    Registry.map s2 = Some m2
    /\ mem (cid first) (controls m2) = true
    /\ Registry.miniMapControl s2 = None
    /\ Registry.removeMiniMap s2 = (Returned RetUndefined, s2, []).
Proof.
  intros Hmap Hload Hopt Hmc Hon Hlt. cbv zeta.
  unfold Registry.addMiniMap. rewrite Hmap, Hload.
  cbn [negb new_layer Registry.new_control fresh fst snd].
  destruct options; try contradiction;
    cbn [fst snd]; unfold Registry.removeMiniMap;
    cbn [Registry.miniMapControl Registry.set_miniMapControl Registry.map
         Registry.set_map Registry.set_page cid fst snd];
    (eexists; split; [reflexivity |]; split; [| split; reflexivity]);
    unfold removeControl, addControl; cbn [controls set_controls];
    rewrite mem_remove_id, mem_app, mem_remove_id, Hon;
    cbn [next set_heap];
    (destruct (Nat.eqb_spec (cid first) (S (next (Registry.page s))));
       [lia | reflexivity]).
Qed.

End RegistryFacts.


(** ** More on the validating [fitBounds] *)

Section FitBoundsFacts.
Context {rt : Runtime}.


(** Bounds that are not an array of two arrays are rejected before any
    coordinate is read: [undefined], [null], a boolean, a number, a string,
    an array whose first or second element is not an array, and corners
    with one element.  An error is logged and the state is the same. *)
Theorem fitBounds_malformed_rejected (s : Registry.state) (m : widget)
    (bounds : value) (widgetThrows : bool) :
  Registry.map s = Some m ->
  match bounds with
  | VUndefined | VNull | VBool _ | VNum _ | VStr _ => True
  | VArr _ items =>
      isArray (nth 0 items VUndefined) = false
      \/ isArray (nth 1 items VUndefined) = false
      \/ (exists r0 a, nth 0 items VUndefined = VArr r0 [a])
      \/ (exists r1 c, nth 1 items VUndefined = VArr r1 [c])
  | VObj _ _ => False
  end ->
  Registry.fitBounds bounds widgetThrows s
  = (Returned RetUndefined, s, [ConsoleError "Invalid bounds format"]).
Proof.
  intros Hmap Hbad. unfold Registry.fitBounds. rewrite Hmap.
  match goal with |- (if ?c then _ else _) = _ =>
    assert (Hc : c = true); [| rewrite Hc; reflexivity] end.
  destruct bounds as [| | b | n | str | r items | r props];
    try contradiction; try reflexivity.
  - destruct b; reflexivity.
  - simpl. apply orb_true_r.
  - cbn [get_index get_length isArray].
    destruct (String.get 0 str); simpl;
      rewrite ?orb_true_r; reflexivity.
  - cbn [get_index]. destruct Hbad as [H | [H | [(r0 & a & H) | (r1 & c & H)]]];
      rewrite H; cbn; rewrite ?orb_true_r; reflexivity.
Qed.

(** An object that only looks like an array, with a [length] of 2 and
    two-element arrays under the keys [0] and [1], passes the shape test;
    destructuring it throws a [TypeError] to the host. *)
Theorem fitBounds_array_like_object_throws (s : Registry.state) (m : widget)
    (r r0 r1 : nat) (props : list (string * value)) (a b c d : value)
    (widgetThrows : bool) :
  Registry.map s = Some m ->
  lookup "length" props = VNum 2%float ->
  lookup "0" props = VArr r0 [a; b] ->
  lookup "1" props = VArr r1 [c; d] ->
  Registry.fitBounds (VObj r props) widgetThrows s
  = (Thrown (TypeError "bounds is not iterable"), s, []).
Proof.
  intros Hmap Hlen H0 H1. unfold Registry.fitBounds. rewrite Hmap.
  cbn [truthy get_length get_index index_key negb orb].
  rewrite Hlen, H0, H1. reflexivity.
Qed.

End FitBoundsFacts.


Lemma fitBounds_malformed_rejected_witness :
  @Registry.fitBounds Demo.runtime
    (VArr 10 [VArr 11 [VNum 1%float; VNum 1%float]; VArr 12 [VNum 2%float]])
    false Demo.registry_ready
  = (Returned RetUndefined, Demo.registry_ready,
     [ConsoleError "Invalid bounds format"]).
Proof.
  apply (@fitBounds_malformed_rejected Demo.runtime Demo.registry_ready
           {| container := "map"; layers := [0]; controls := [];
              handlers := [];
              current_view := Some (ViewAt Demo.zero Demo.zero Demo.ten) |}).
  - reflexivity.
  - right. right. right. exists 12, (VNum 2%float). reflexivity.
Defined.

Lemma fitBounds_array_like_object_throws_witness :
  @Registry.fitBounds Demo.runtime
    (VObj 10 [("0"%string, VArr 11 [Demo.zero; Demo.zero]);
              ("1"%string, VArr 12 [Demo.ten; Demo.ten]);
              ("length"%string, VNum 2%float)])
    false Demo.registry_ready
  = (Thrown (TypeError "bounds is not iterable"), Demo.registry_ready, []).
Proof.
  apply (@fitBounds_array_like_object_throws Demo.runtime Demo.registry_ready
           {| container := "map"; layers := [0]; controls := [];
              handlers := [];
              current_view := Some (ViewAt Demo.zero Demo.zero Demo.ten) |}
           10 11 12 _ Demo.zero Demo.zero Demo.ten Demo.ten false);
    reflexivity.
Defined.

(** ** [leafletWrapper.js]: styles, layers, base maps, drawing tools *)

Section WrapperFacts.

Lemma lookup_assign (k k' : string) (v : value) (o : list (string * value)) :
  lookup k (Wrapper.assign k' v o)
  = if String.eqb k k' then v else lookup k o.
Proof.
  induction o as [| [k0 v0] o IH]; simpl.
  - reflexivity.
  - destruct (String.eqb_spec k' k0) as [E | E]; simpl.
    + subst k0. destruct (String.eqb k k'); reflexivity.
    + destruct (String.eqb_spec k k0) as [E0 | E0].
      * subst k0. destruct (String.eqb_spec k k') as [E1 | E1];
          [congruence | reflexivity].
      * exact IH.
Qed.

Lemma lookup_absent (k : string) (props : list (string * value)) :
  mem_string k (List.map fst props) = false -> lookup k props = VUndefined.
Proof.
  induction props as [| [k0 v0] props IH]; simpl; [reflexivity |].
  destruct (String.eqb k k0); simpl; [discriminate | exact IH].
Qed.

(** [{ ...base, ...options }] read at a key: the own property of [options]
    when it has one, the entry of [base] otherwise. *)
Lemma lookup_spread (k : string) (r : nat) (props : list (string * value)) :
  NoDup (List.map fst props) ->
  forall base,
    lookup k (Wrapper.spread base (VObj r props))
    = if mem_string k (List.map fst props) then lookup k props
      else lookup k base.
Proof.
  unfold Wrapper.spread.
  induction props as [| [k0 v0] props IH]; intros Hnd base; simpl;
    [reflexivity |].
  inversion Hnd as [| x l Hnotin Hnd']; subst.
  rewrite (IH Hnd'). rewrite lookup_assign.
  destruct (String.eqb_spec k k0) as [E | E]; simpl; [| reflexivity].
  subst k0.
  destruct (mem_string k (List.map fst props)) eqn:Hm; [| reflexivity].
  exfalso. apply Hnotin. unfold mem_string in Hm.
  apply existsb_exists in Hm. destruct Hm as (x & Hx & Heq).
  apply String.eqb_eq in Heq. subst x. exact Hx.
Qed.

(** With the map created, an overlay built by [add_styled] is stored with
    the style [{ ...defaults, ...options }]. *)
Lemma add_styled_stores (k : kind) (geom : list value)
    (defaults : value -> list (string * value)) (r : nat)
    (props : list (string * value)) (s : Wrapper.state) (m : widget) :
  Wrapper.map s = Some m ->
  ids_below (next (Wrapper.page s)) (heap (Wrapper.page s)) ->
  exists s' l,
    Wrapper.add_styled k geom defaults (VObj r props) s
    = (Returned (RetHandle (next (Wrapper.page s))), s', [])
    /\ find_layer (next (Wrapper.page s)) (heap (Wrapper.page s')) = Some l
    /\ lopts l
       = VObj 0 (Wrapper.spread (defaults (VObj r props)) (VObj r props)).
Proof.
  intros Hmap Hbelow. unfold Wrapper.add_styled, Wrapper.addTo_map.
  cbn [Registry.default new_layer Wrapper.set_page Wrapper.map].
  rewrite Hmap. do 2 eexists. split; [reflexivity |].
  cbn -[find_layer Wrapper.spread]. rewrite find_layer_app.
  rewrite (find_layer_below _ _ _ Hbelow) by lia.
  simpl. rewrite Nat.eqb_refl. split; reflexivity.
Qed.

(** The style of a circle: every own property of [options] is taken as it
    is, even when it is falsy (an opacity of 0, a [null] colour); only the
    keys that [options] does not have get [radius] and the defaults red,
    [#f03], 0.5 and 2. *)
Theorem addCircle_style (lat lng radius : value) (r : nat)
    (props : list (string * value)) (s : Wrapper.state) (m : widget)
    (k : string) :
  Wrapper.map s = Some m ->
  ids_below (next (Wrapper.page s)) (heap (Wrapper.page s)) ->
  NoDup (List.map fst props) ->
  exists s' l style,
    Wrapper.addCircle lat lng radius (VObj r props) s
    = (Returned (RetHandle (next (Wrapper.page s))), s', [])
    /\ find_layer (next (Wrapper.page s)) (heap (Wrapper.page s')) = Some l
    /\ lopts l = VObj 0 style
    /\ lookup k style
       = if mem_string k (List.map fst props) then lookup k props
         else lookup k [("radius", radius); ("color", VStr "red");
                        ("fillColor", VStr "#f03");
                        ("fillOpacity", VNum 0.5%float);
                        ("weight", VNum 2%float)]%string.
Proof.
  intros Hmap Hbelow Hnd. unfold Wrapper.addCircle.
  destruct (add_styled_stores Circle [lat; lng; radius]
              (fun o => [("radius", radius);
                         ("color", Wrapper.opt o "color" (VStr "red"));
                         ("fillColor", Wrapper.opt o "fillColor" (VStr "#f03"));
                         ("fillOpacity",
                          Wrapper.opt o "fillOpacity" (VNum 0.5%float));
                         ("weight", Wrapper.opt o "weight" (VNum 2%float))]%string)
              r props s m Hmap Hbelow) as (s' & l & Hrun & Hfind & Hopts).
  exists s', l. eexists. split; [exact Hrun |]. split; [exact Hfind |].
  split; [exact Hopts |].
  rewrite (lookup_spread k r props Hnd).
  destruct (mem_string k (List.map fst props)) eqn:Hk; [reflexivity |].
  unfold Wrapper.opt, Registry.prop, Registry.get_prop, Registry.js_or.
  cbn [lookup].
  destruct (String.eqb k "radius"); [reflexivity |].
  destruct (String.eqb_spec k "color") as [E | E].
  { subst k. rewrite (lookup_absent _ _ Hk). reflexivity. }
  destruct (String.eqb_spec k "fillColor") as [E1 | E1].
  { subst k. rewrite (lookup_absent _ _ Hk). reflexivity. }
  destruct (String.eqb_spec k "fillOpacity") as [E2 | E2].
  { subst k. rewrite (lookup_absent _ _ Hk). reflexivity. }
  destruct (String.eqb_spec k "weight") as [E3 | E3].
  { subst k. rewrite (lookup_absent _ _ Hk). reflexivity. }
  reflexivity.
Qed.

(** The style of a structure: the [color] and [borderWidth] arguments set
    [color], [fillColor] and [weight], unless [options] has a property of
    that name, which then replaces the argument. *)
Theorem addStructure_style (latLngs color borderWidth : value) (r : nat)
    (props : list (string * value)) (s : Wrapper.state) (m : widget)
    (k : string) :
  Wrapper.map s = Some m ->
  ids_below (next (Wrapper.page s)) (heap (Wrapper.page s)) ->
  NoDup (List.map fst props) ->
  exists s' l style,
    Wrapper.addStructure latLngs color borderWidth (VObj r props) s
    = (Returned (RetHandle (next (Wrapper.page s))), s', [])
    /\ find_layer (next (Wrapper.page s)) (heap (Wrapper.page s')) = Some l
    /\ lkind l = Polygon
    /\ lopts l = VObj 0 style
    /\ lookup k style
       = if mem_string k (List.map fst props) then lookup k props
         else lookup k
                [("color", Registry.default color (VStr "blue"));
                 ("weight", Registry.default borderWidth (VNum 2%float));
                 ("fillColor", Registry.default color (VStr "blue"));
                 ("fillOpacity", VNum 0.5%float);
                 ("opacity", VNum 1%float)]%string.
Proof.
  intros Hmap Hbelow Hnd. unfold Wrapper.addStructure.
  unfold Wrapper.add_styled, Wrapper.addTo_map.
  cbn [Registry.default new_layer Wrapper.set_page Wrapper.map].
  rewrite Hmap. do 3 eexists. split; [reflexivity |].
  cbn -[find_layer Wrapper.spread Wrapper.structure_style].
  rewrite find_layer_app.
  rewrite (find_layer_below _ _ _ Hbelow) by lia.
  cbn -[Wrapper.spread Wrapper.structure_style]. rewrite Nat.eqb_refl.
  split; [reflexivity |]. split; [reflexivity |]. split; [reflexivity |].
  rewrite (lookup_spread k r props Hnd).
  destruct (mem_string k (List.map fst props)) eqn:Hk; [reflexivity |].
  unfold Wrapper.structure_style, Wrapper.opt, Registry.prop,
    Registry.get_prop, Registry.js_or.
  cbn [lookup].
  destruct (String.eqb k "color"); [reflexivity |].
  destruct (String.eqb k "weight"); [reflexivity |].
  destruct (String.eqb k "fillColor"); [reflexivity |].
  destruct (String.eqb_spec k "fillOpacity") as [E2 | E2].
  { subst k. rewrite (lookup_absent _ _ Hk). reflexivity. }
  destruct (String.eqb_spec k "opacity") as [E3 | E3].
  { subst k. rewrite (lookup_absent _ _ Hk). reflexivity. }
  reflexivity.
Qed.

Lemma remove_id_absent (i : nat) (l : list nat) :
  mem i l = false -> remove_id i l = l.
Proof.
  unfold mem, remove_id. induction l as [| x l IH]; simpl; [reflexivity |].
  rewrite Nat.eqb_sym.
  destruct (Nat.eqb x i); simpl; [discriminate |].
  intros H. rewrite (IH H). reflexivity.
Qed.




(** Switching the base map: from the OpenStreetMap layer, [setMapType]
    with [satellite] takes that layer off the map and puts the satellite
    layer on, and [setMapType] with [osm] afterwards brings the first one
    back; no other layer enters or leaves the map. *)
Theorem setMapType_switches (s : Wrapper.state) (m : widget)
    (osm satellite : nat) :
  Wrapper.map s = Some m ->
  Wrapper.baseLayers_osm s = Some osm ->
  Wrapper.baseLayers_satellite s = Some satellite ->
  Wrapper.currentBaseLayer s = "osm"%string ->
  osm <> satellite ->
  let s1 := snd (fst (Wrapper.setMapType "satellite" s)) in
  let s2 := snd (fst (Wrapper.setMapType "osm" s1)) in
  exists m1 m2,
    Wrapper.map s1 = Some m1 /\ Wrapper.map s2 = Some m2
    /\ Wrapper.currentBaseLayer s1 = "satellite"%string
    /\ Wrapper.currentBaseLayer s2 = "osm"%string
    /\ mem osm (layers m1) = false /\ mem satellite (layers m1) = true
    /\ mem osm (layers m2) = true /\ mem satellite (layers m2) = false
    /\ (forall i, i <> osm -> i <> satellite ->
                  mem i (layers m1) = mem i (layers m)
                  /\ mem i (layers m2) = mem i (layers m)).
Proof.
  intros Hmap Hosm Hsat Hcur Hne. cbv zeta.
  assert (H1 : Wrapper.setMapType "satellite" s
               = (Returned RetUndefined,
                  Wrapper.set_currentBaseLayer
                    (Wrapper.set_map
                       (Wrapper.set_map s (Some (Leaflet.removeLayer m osm)))
                       (Some (addLayer (Leaflet.removeLayer m osm) satellite)))
                    "satellite", [])).
  { unfold Wrapper.setMapType, Wrapper.baseLayers. rewrite Hcur.
    cbn [String.eqb Ascii.eqb Bool.eqb]. rewrite Hosm, Hmap.
    cbn [Wrapper.set_map Wrapper.baseLayers_satellite Wrapper.map
         Wrapper.baseLayers_osm Wrapper.currentBaseLayer].
    rewrite Hsat. reflexivity. }
  rewrite H1. cbn [fst snd].
  assert (H2 : Wrapper.setMapType "osm"
                 (Wrapper.set_currentBaseLayer
                    (Wrapper.set_map
                       (Wrapper.set_map s (Some (Leaflet.removeLayer m osm)))
                       (Some (addLayer (Leaflet.removeLayer m osm) satellite)))
                    "satellite")
               = (Returned RetUndefined,
                  Wrapper.set_currentBaseLayer
                    (Wrapper.set_map
                       (Wrapper.set_map s (Some (Leaflet.removeLayer m osm)))
                       (Some (addLayer
                                (Leaflet.removeLayer
                                   (addLayer (Leaflet.removeLayer m osm)
                                      satellite) satellite) osm)))
                    "osm", [])).
  { unfold Wrapper.setMapType, Wrapper.baseLayers.
    cbn [Wrapper.set_map Wrapper.set_currentBaseLayer
         Wrapper.baseLayers_satellite Wrapper.map Wrapper.baseLayers_osm
         Wrapper.currentBaseLayer String.eqb Ascii.eqb Bool.eqb].
    rewrite Hsat.
    cbn [Wrapper.set_map Wrapper.set_currentBaseLayer
         Wrapper.baseLayers_satellite Wrapper.map Wrapper.baseLayers_osm
         Wrapper.currentBaseLayer String.eqb Ascii.eqb Bool.eqb].
    rewrite Hosm. reflexivity. }
  rewrite H2. cbn [fst snd Wrapper.map Wrapper.currentBaseLayer
    Wrapper.set_currentBaseLayer Wrapper.set_map].
  do 2 eexists. split; [reflexivity |]. split; [reflexivity |].
  split; [reflexivity |]. split; [reflexivity |].
  unfold addLayer, Leaflet.removeLayer. cbn [layers set_layers].
  assert (Hadd : forall i j l, mem i (add_id j l)
                               = (mem i l || Nat.eqb i j)%bool).
  { intros i j l. unfold add_id. destruct (mem j l) eqn:E.
    - destruct (Nat.eqb_spec i j) as [-> | Hij];
        [rewrite E; reflexivity | rewrite orb_false_r; reflexivity].
    - rewrite mem_app. simpl. rewrite orb_false_r. reflexivity. }
  repeat split; intros;
    rewrite ?Hadd, ?mem_remove_id, ?Hadd, ?mem_remove_id;
    repeat match goal with
           | |- context [Nat.eqb ?a ?b] =>
               destruct (Nat.eqb_spec a b); try congruence
           end;
    simpl; rewrite ?andb_false_r, ?andb_true_r, ?orb_false_r, ?orb_true_r;
    try reflexivity; try congruence.
Qed.

(** An unknown map type blanks the map: [setMapType] first removes the
    current base layer and then finds no layer to add, so no base layer is
    on the map any more, [currentBaseLayer] keeps its old value, and
    nothing is reported to the host. *)
Theorem setMapType_unknown_blanks (mapType : string) (s : Wrapper.state)
    (m : widget) (osm : nat) :
  Wrapper.map s = Some m ->
  Wrapper.baseLayers_osm s = Some osm ->
  Wrapper.currentBaseLayer s = "osm"%string ->
  Wrapper.baseLayers s mapType = Wrapper.Missing ->
  exists s',
    Wrapper.setMapType mapType s = (Returned RetUndefined, s', [])
    /\ Wrapper.map s' = Some (Leaflet.removeLayer m osm)
    /\ mem osm (layers (Leaflet.removeLayer m osm)) = false
    /\ Wrapper.currentBaseLayer s' = "osm"%string.
Proof.
  intros Hmap Hosm Hcur Hmiss. unfold Wrapper.setMapType.
  assert (Hb : Wrapper.baseLayers s "osm" = Wrapper.Own osm).
  { unfold Wrapper.baseLayers. simpl. rewrite Hosm. reflexivity. }
  rewrite Hcur, Hb, Hmap.
  assert (Hm' : Wrapper.baseLayers
                  (Wrapper.set_map s (Some (Leaflet.removeLayer m osm)))
                  mapType = Wrapper.Missing) by exact Hmiss.
  rewrite Hm'. eexists. split; [reflexivity |].
  split; [reflexivity |]. split; [| exact Hcur].
  unfold Leaflet.removeLayer. cbn [layers set_layers].
  rewrite mem_remove_id, Nat.eqb_refl. apply andb_false_r.
Qed.

(** Before [createMap] the wrapper has no base layers, and [setMapType]
    with [osm] or [satellite] returns without touching the missing map. *)
Theorem setMapType_before_createMap (p : page) :
  Wrapper.setMapType "osm" (Wrapper.initial p)
  = (Returned RetUndefined, Wrapper.initial p, [])
  /\ Wrapper.setMapType "satellite" (Wrapper.initial p)
     = (Returned RetUndefined, Wrapper.initial p, []).
Proof. split; reflexivity. Qed.

(** With the drawing tools initialised and enabled: [enableDrawing]
    changes nothing; [disableDrawing] takes the control off the map and a
    second [disableDrawing] changes nothing more; [enableDrawing] then puts
    the control back.  The drawn items and the listeners are never
    touched. *)
Theorem drawing_toggle (s : Wrapper.state) (m : widget) (ctl : control) :
  Wrapper.map s = Some m ->
  Wrapper.drawControl s = Some ctl ->
  Wrapper.drawEnabled s = true ->
  let off1 := snd (fst (Wrapper.disableDrawing s)) in
  let on1 := snd (fst (Wrapper.enableDrawing off1)) in
  Wrapper.enableDrawing s = (Returned RetUndefined, s, [])
  /\ Wrapper.disableDrawing off1 = (Returned RetUndefined, off1, [])
  /\ Wrapper.drawEnabled off1 = false
  /\ option_map controls (Wrapper.map off1)
     = Some (remove_id (cid ctl) (controls m))
  /\ Wrapper.drawEnabled on1 = true
  /\ option_map controls (Wrapper.map on1)
     = Some (remove_id (cid ctl) (controls m) ++ [cid ctl])
  /\ Wrapper.page on1 = Wrapper.page s
  /\ Wrapper.drawnItems on1 = Wrapper.drawnItems s
  /\ option_map handlers (Wrapper.map on1) = Some (handlers m)
  /\ option_map layers (Wrapper.map on1) = Some (layers m).
Proof.
  intros Hmap Hdc Hen. cbv zeta.
  assert (H1 : Wrapper.enableDrawing s = (Returned RetUndefined, s, [])).
  { unfold Wrapper.enableDrawing. rewrite Hdc, Hen. reflexivity. }
  assert (H2 : Wrapper.disableDrawing s
               = (Returned RetUndefined,
                  Wrapper.set_drawEnabled
                    (Wrapper.set_map s (Some (removeControl m (cid ctl))))
                    false, [])).
  { unfold Wrapper.disableDrawing. rewrite Hdc, Hen, Hmap. reflexivity. }
  rewrite H2. cbn [fst snd].
  set (off1 := Wrapper.set_drawEnabled
                 (Wrapper.set_map s (Some (removeControl m (cid ctl))))
                 false).
  assert (H3 : Wrapper.disableDrawing off1
               = (Returned RetUndefined, off1, [])).
  { unfold Wrapper.disableDrawing, off1.
    cbn [Wrapper.drawControl Wrapper.drawEnabled Wrapper.set_map
         Wrapper.set_drawEnabled].
    rewrite Hdc. reflexivity. }
  assert (H4 : Wrapper.enableDrawing off1
               = (Returned RetUndefined,
                  Wrapper.set_drawEnabled
                    (Wrapper.set_map off1
                       (Some (addControl (removeControl m (cid ctl))
                                (cid ctl))))
                    true, [])).
  { unfold Wrapper.enableDrawing, off1.
    cbn [Wrapper.drawControl Wrapper.drawEnabled Wrapper.set_map
         Wrapper.set_drawEnabled Wrapper.map].
    rewrite Hdc. reflexivity. }
  rewrite H4. cbn [fst snd].
  split; [exact H1 |]. split; [exact H3 |].
  unfold off1. cbn -[remove_id].
  assert (Hrr : remove_id (cid ctl) (remove_id (cid ctl) (controls m))
                = remove_id (cid ctl) (controls m)).
  { apply remove_id_absent. rewrite mem_remove_id, Nat.eqb_refl.
    apply andb_false_r. }
  rewrite Hrr. repeat split.
Qed.

(** A second [initDrawTools] in [leafletWrapper.js] replaces the tools: the
    old drawn-items group and the old control leave the map, a new empty
    group and a new control are on it, and the click listeners registered
    by [setupMapClick] are kept. *)
Theorem wrapper_reinit_replaces_tools (a b c : value) (s : Wrapper.state)
    (m : widget) (ctl : control) :
  Wrapper.map s = Some m ->
  drawLoaded (Wrapper.page s) = true ->
  ids_below (next (Wrapper.page s)) (heap (Wrapper.page s)) ->
  Wrapper.drawControl s = Some ctl ->
  Wrapper.drawnItems s < next (Wrapper.page s) ->
  cid ctl < next (Wrapper.page s) ->
  exists s' m' ctl',
    Wrapper.initDrawTools a b c s = (Returned RetUndefined, s', [])
    /\ Wrapper.map s' = Some m'
    /\ mem (Wrapper.drawnItems s) (layers m') = false
    /\ mem (cid ctl) (controls m') = false
    /\ Wrapper.drawnItems s' = next (Wrapper.page s)
    /\ mem (Wrapper.drawnItems s') (layers m') = true
    /\ Wrapper.drawnLayers s' = []
    /\ Wrapper.drawControl s' = Some ctl'
    /\ mem (cid ctl') (controls m') = true
    /\ Wrapper.drawEnabled s' = true
    /\ listeners m' Click = listeners m Click.
Proof.
  intros Hmap Hload Hbelow Hdc Hg Hc.
  unfold Wrapper.initDrawTools, Wrapper.reset_drawn_items. rewrite Hmap, Hdc.
  cbn [new_layer]. unfold Wrapper.install_draw_control.
  cbn [Wrapper.page Wrapper.set_page Wrapper.set_drawnItems drawLoaded
       set_heap].
  rewrite Hload. cbn [negb Registry.new_control fresh].
  do 3 eexists. split; [reflexivity |].
  cbn [Wrapper.map Wrapper.set_map Wrapper.set_page Wrapper.set_drawControl
       Wrapper.set_drawnItems Wrapper.set_drawEnabled Wrapper.drawControl
       Wrapper.drawnItems Wrapper.page Wrapper.drawEnabled cid next set_heap].
  split; [reflexivity |].
  assert (Hadd : forall i j l, mem i (add_id j l)
                               = (mem i l || Nat.eqb i j)%bool).
  { intros i j l. unfold add_id. destruct (mem j l) eqn:E.
    - destruct (Nat.eqb_spec i j) as [-> | Hij];
        [rewrite E; reflexivity | rewrite orb_false_r; reflexivity].
    - rewrite mem_app. simpl. rewrite orb_false_r. reflexivity. }
  split.
  { cbn -[mem add_id remove_id]. rewrite Hadd, mem_remove_id, Nat.eqb_refl.
    rewrite andb_false_r. simpl.
    destruct (Nat.eqb_spec (Wrapper.drawnItems s) (next (Wrapper.page s)));
      [lia | reflexivity]. }
  split.
  { cbn -[mem add_id remove_id].
    rewrite mem_app, !mem_remove_id, Nat.eqb_refl, !andb_false_r. simpl.
    destruct (Nat.eqb_spec (cid ctl) (S (next (Wrapper.page s))));
      [lia | reflexivity]. }
  split; [reflexivity |].
  split.
  { cbn -[mem add_id remove_id]. rewrite Hadd, Nat.eqb_refl.
    apply orb_true_r. }
  split.
  { unfold Wrapper.drawnLayers, members. cbn -[find_layer].
    rewrite find_layer_app.
    rewrite (find_layer_below _ _ _ Hbelow) by lia.
    simpl. rewrite Nat.eqb_refl. reflexivity. }
  split; [reflexivity |].
  split.
  { cbn -[mem add_id remove_id]. rewrite mem_app. simpl.
    rewrite Nat.eqb_refl. apply orb_true_r. }
  split; [reflexivity |].
  unfold listeners, on, off. cbn -[filter].
  rewrite filter_app. simpl. rewrite app_nil_r.
  induction (handlers m) as [| [e h] hs IH]; simpl; [reflexivity |].
  destruct e; simpl; [exact IH |]. rewrite <- IH. reflexivity.
Qed.

(** Each [setupMapClick] of [leafletWrapper.js] registers one more click
    listener and drops none; before [createMap] the call throws. *)
Theorem wrapper_setupMapClick_accumulates (dotNetReference : nat)
    (s : Wrapper.state) :
  match Wrapper.map s with
  | Some m =>
      exists m',
        Wrapper.map (snd (fst (Wrapper.setupMapClick dotNetReference s)))
        = Some m'
        /\ listeners m' Click
           = listeners m Click ++ [InvokeHost dotNetReference "OnMapClick"]
        /\ listeners m' DrawCreated = listeners m DrawCreated
  | None =>
      Wrapper.setupMapClick dotNetReference s
      = (Thrown Wrapper.undefined_map, s, [])
  end.
Proof.
  unfold Wrapper.setupMapClick. destruct (Wrapper.map s) as [m |];
    [| reflexivity].
  eexists. split; [reflexivity |].
  unfold listeners, on. cbn [handlers set_handlers].
  rewrite !filter_app, !map_app. simpl. rewrite app_nil_r. auto.
Qed.

(** [addMiniMap] of [leafletWrapper.js] replaces a mini-map that is already
    there: the old control leaves the map and the new one is the only one
    the wrapper refers to; [removeMiniMap] then leaves neither on the map. *)
Theorem wrapper_addMiniMap_replaces (url : option string) (options : value)
    (s : Wrapper.state) (m : widget) (old : control) :
  Wrapper.map s = Some m ->
  miniMapLoaded (Wrapper.page s) = true ->
  Wrapper.miniMapControl s = Some old ->
  cid old <= next (Wrapper.page s) ->
  exists s1 m1 ctl,
    Wrapper.addMiniMap url options s = (Returned (RetHandle (cid ctl)), s1, [])
    /\ Wrapper.map s1 = Some m1
    /\ Wrapper.miniMapControl s1 = Some ctl
    /\ mem (cid old) (controls m1) = false
    /\ mem (cid ctl) (controls m1) = true
    /\ exists m2,
         Wrapper.map (snd (fst (Wrapper.removeMiniMap s1))) = Some m2
         /\ mem (cid old) (controls m2) = false
         /\ mem (cid ctl) (controls m2) = false
         /\ Wrapper.miniMapControl (snd (fst (Wrapper.removeMiniMap s1)))
            = None.
Proof.
  intros Hmap Hload Hold Hlt. unfold Wrapper.addMiniMap.
  rewrite Hold, Hmap.
  cbn [new_layer Wrapper.page Wrapper.set_map miniMapLoaded set_heap].
  rewrite Hload. cbn [negb Registry.new_control fresh Wrapper.map Wrapper.set_map].
  do 3 eexists. split; [reflexivity |].
  cbn [Wrapper.map Wrapper.set_map Wrapper.set_page Wrapper.set_miniMapControl
       Wrapper.miniMapControl cid next set_heap].
  split; [reflexivity |]. split; [reflexivity |].
  unfold addControl, removeControl. cbn [controls set_controls].
  split.
  { rewrite mem_app, !mem_remove_id, Nat.eqb_refl, !andb_false_r. simpl.
    destruct (Nat.eqb_spec (cid old) (S (next (Wrapper.page s))));
      [lia | reflexivity]. }
  split.
  { rewrite mem_app. simpl. rewrite Nat.eqb_refl. apply orb_true_r. }
  unfold Wrapper.removeMiniMap.
  cbn [Wrapper.map Wrapper.set_map Wrapper.set_page Wrapper.set_miniMapControl
       Wrapper.miniMapControl cid next set_heap fst snd].
  eexists. split; [reflexivity |].
  unfold removeControl. cbn [controls set_controls].
  split.
  { rewrite mem_remove_id, mem_app, !mem_remove_id, Nat.eqb_refl,
      !andb_false_r. simpl.
    destruct (Nat.eqb_spec (cid old) (S (next (Wrapper.page s))));
      [lia | reflexivity]. }
  split; [| reflexivity].
  rewrite mem_remove_id, Nat.eqb_refl. apply andb_false_r.
Qed.

End WrapperFacts.

(** ** More on popup templates *)

Section PopupFacts.
Context {rt : Runtime}.
Local Open Scope string_scope.

Lemma append_empty_r (s : string) : s ++ "" = s.
Proof.
  induction s as [| c s IH]; simpl; [reflexivity | rewrite IH; reflexivity].
Qed.

Lemma split_first_none (pat s : string) :
  (forall k, starts_with pat (drop k s) = false) ->
  split_first pat s = None.
Proof.
  induction s as [| c s IH]; intros Hno.
  - rewrite split_first_eq.
    assert (H0 : starts_with pat "" = false) by apply (Hno 0).
    rewrite H0. reflexivity.
  - rewrite split_first_eq.
    assert (H0 : starts_with pat (String c s) = false) by apply (Hno 0).
    rewrite H0. rewrite IH; [reflexivity |].
    intros k. apply (Hno (S k)).
Qed.

(** A template that contains the placeholder of none of the feature's
    properties becomes the popup text unchanged: placeholders of properties
    the feature does not have stay as they are written. *)
Theorem popupContent_without_placeholders (template : string)
    (props : list (string * value)) :
  Forall (fun kv => forall k,
            starts_with ("{" ++ fst kv ++ "}") (drop k template) = false)
    props ->
  Wrapper.popupContent (VStr template) props = Returned (VStr template).
Proof.
  intros Hall. induction Hall as [| [p v] props Hp Hall IH].
  - reflexivity.
  - cbn [Wrapper.popupContent Wrapper.substitute fst snd].
    cbn [fst] in Hp.
    unfold replace. rewrite (split_first_none _ _ Hp). exact IH.
Qed.

(** Dollar signs in a property value are not copied literally: the value
    [$&] puts the placeholder itself back, so the template comes out
    unchanged, and the value [$$] leaves a single dollar sign. *)
Theorem popupContent_dollar_patterns (pre post p : string) :
  (forall k, k < String.length pre ->
             starts_with ("{" ++ p ++ "}")
               (drop k (pre ++ ("{" ++ p ++ "}") ++ post)) = false) ->
  Wrapper.popupContent (VStr (pre ++ ("{" ++ p ++ "}") ++ post))
    [(p, VStr "$&")]
  = Returned (VStr (pre ++ ("{" ++ p ++ "}") ++ post))
  /\ Wrapper.popupContent (VStr (pre ++ ("{" ++ p ++ "}") ++ post))
       [(p, VStr "$$")]
     = Returned (VStr (pre ++ "$" ++ post)).
Proof.
  intros Hno.
  split; cbn [Wrapper.popupContent Wrapper.substitute fst snd ToString];
    unfold replace; rewrite (split_first_at _ _ _ Hno);
    cbn [GetSubstitution Ascii.eqb Bool.eqb].
  - rewrite append_empty_r. reflexivity.
  - reflexivity.
Qed.

(** A template that is truthy but not a string makes [addGeoJsonWithPopup]
    throw as soon as the first feature has a property, and nothing is added
    to the map; a falsy template, or a feature without properties, binds no
    popup. *)
Theorem addGeoJsonWithPopup_template_kinds (template : value) (f : feature)
    (rest : list feature) (k : string) (v : value)
    (props : list (string * value)) (s : Wrapper.state) (i : nat)
    (p : page) :
  (fproperties f = Some ((k, v) :: props) ->
   truthy template = true ->
   (forall text, template <> VStr text) ->
   Wrapper.addGeoJsonWithPopup (FeatureCollection (f :: rest)) template s
   = (Thrown (TypeError "popupContent.replace is not a function"), s, []))
  /\ (truthy template = false ->
      Wrapper.bind_template_popup template f i p = Returned p)
  /\ (fproperties f = None ->
      Wrapper.bind_template_popup template f i p = Returned p).
Proof.
  split; [| split].
  - intros Hprops Htruthy Hnot.
    unfold Wrapper.addGeoJsonWithPopup, geoJSON.
    cbn [features_of geoJSON_members new_layer].
    unfold Wrapper.bind_template_popup at 1. rewrite Hprops, Htruthy.
    cbn [Wrapper.popupContent].
    assert (Hsub : Wrapper.substitute template (k, v)
                   = Thrown (TypeError "popupContent.replace is not a function")).
    { destruct template; try reflexivity. exfalso. eapply Hnot. reflexivity. }
    rewrite Hsub. reflexivity.
  - intros Hfalsy. unfold Wrapper.bind_template_popup. rewrite Hfalsy.
    destruct (fproperties f); reflexivity.
  - intros Hnone. unfold Wrapper.bind_template_popup. rewrite Hnone.
    reflexivity.
Qed.

End PopupFacts.

(** ** The properties above on the sample page *)

Ltac below := unfold ids_below; cbv; repeat constructor.

Lemma registry_adds_then_clearMap_witness :
  let os := [Registry.AddMarker Demo.zero Demo.zero VUndefined;
             Registry.AddGeoJson (FeatureCollection []) VUndefined] in
  let s2 := snd (fst (Registry.clearMap
                        (@Registry.run Demo.runtime os Demo.registry_ready))) in
  Registry.tracked s2 = [] /\ Registry.on_map 0 s2 = true.
Proof.
  cbv zeta.
  destruct (@registry_adds_then_clearMap Demo.runtime
              [Registry.AddMarker Demo.zero Demo.zero VUndefined;
               Registry.AddGeoJson (FeatureCollection []) VUndefined]
              Demo.registry_ready
              {| container := "map"; layers := [0]; controls := [];
                 handlers := [];
                 current_view := Some (ViewAt Demo.zero Demo.zero Demo.ten) |})
    as (Hempty & _ & Hkeep).
  - repeat constructor.
  - reflexivity.
  - split; [exact Hempty |]. apply Hkeep.
    + reflexivity.
    + cbv. repeat constructor.
    + intros H. exact H.
Defined.

Lemma wrapper_initDrawTools_one_subscription_witness :
  Wrapper.drawSubscriptions
    (snd (fst (Wrapper.initDrawTools VUndefined VUndefined VUndefined
                 Demo.wrapper_tools))) = 1.
Proof.
  apply (wrapper_initDrawTools_one_subscription VUndefined VUndefined
           VUndefined Demo.wrapper_tools
           {| container := "map"; layers := [1; 4]; controls := [3; 5];
              handlers := [(DrawCreated, AddToDrawnItems)];
              current_view := Some (ViewAt Demo.zero Demo.zero Demo.ten) |});
    reflexivity.
Defined.


Lemma no_drawn_items_before_init_witness :
  let s := @Registry.run Demo.runtime
             [Registry.CreateMap "map" Demo.zero Demo.zero Demo.ten;
              Registry.AddMarker Demo.zero Demo.zero VUndefined]
             (Registry.initial Demo.page) in
  Registry.getDrawnGeoJson s = (Returned RetNull, s, []).
Proof.
  cbv zeta.
  apply (@no_drawn_items_before_init Demo.runtime Demo.page
           [Registry.CreateMap "map" Demo.zero Demo.zero Demo.ten;
            Registry.AddMarker Demo.zero Demo.zero VUndefined]
           (FeatureCollection [])).
  repeat constructor.
Defined.

Lemma registry_reinit_leaves_old_tools_witness :
  exists s',
    Registry.initDrawTools VUndefined VUndefined VUndefined
      Demo.registry_drawn
    = (Returned RetUndefined, s', [])
    /\ Registry.on_map 1 s' = true
    /\ Registry.drawnLayers s' = []
    /\ List.length (Registry.drawnLayers Demo.registry_drawn) = 2.
Proof.
  destruct (registry_reinit_leaves_old_tools VUndefined VUndefined VUndefined
              Demo.registry_drawn
              {| container := "map"; layers := [0; 1]; controls := [2];
                 handlers := [(DrawCreated, AddToDrawnItems)];
                 current_view := Some (ViewAt Demo.zero Demo.zero Demo.ten) |}
              1
              {| cid := 2; ckind := DrawControl;
                 cconfig := [("position"%string, VStr "topright");
                             ("lineColor"%string, VStr "#3388ff");
                             ("fillColor"%string, VStr "#3388ff");
                             ("lineWeight"%string, VNum 2%float);
                             ("marker"%string, VBool true)];
                 cgroup := Some 1; cminimized := false |})
    as (s' & m' & ctl' & Hrun & Hmap & Hg & _ & _ & _ & _ & _ & Hempty & _).
  - reflexivity.
  - reflexivity.
  - below.
  - reflexivity.
  - reflexivity.
  - reflexivity.
  - reflexivity.
  - exists s'. split; [exact Hrun |]. split.
    + unfold Registry.on_map. rewrite Hmap. exact Hg.
    + split; [exact Hempty | reflexivity].
Defined.

Lemma registry_initDrawToolsAdvanced_without_options_witness :
  exists e s',
    Registry.initDrawToolsAdvanced VUndefined Demo.registry_drawn
    = (Thrown e, s', [])
    /\ Registry.drawnLayers s' = [].
Proof.
  destruct (registry_initDrawToolsAdvanced_without_options VUndefined
              Demo.registry_drawn
              {| container := "map"; layers := [0; 1]; controls := [2];
                 handlers := [(DrawCreated, AddToDrawnItems)];
                 current_view := Some (ViewAt Demo.zero Demo.zero Demo.ten) |})
    as (e & s' & Hrun & _ & Hempty & _).
  - left. reflexivity.
  - reflexivity.
  - below.
  - exists e, s'. split; [exact Hrun | exact Hempty].
Defined.

Lemma registry_setupMapClick_accumulates_witness :
  exists m',
    Registry.map
      (snd (fst (Registry.setupMapClick 7
                   (snd (fst (Registry.setupMapClick 7
                                Demo.registry_ready))))))
    = Some m'
    /\ List.length (listeners m' Click) = 2.
Proof.
  destruct (registry_setupMapClick_accumulates 7
              (snd (fst (Registry.setupMapClick 7 Demo.registry_ready)))
              {| container := "map"; layers := [0]; controls := [];
                 handlers := [(Click, InvokeHost 7 "HandleMapClick")];
                 current_view := Some (ViewAt Demo.zero Demo.zero Demo.ten) |}
              eq_refl eq_refl)
    as (m' & Hmap & Hclick & _).
  exists m'. split; [exact Hmap |]. rewrite Hclick. reflexivity.
Defined.

Lemma registry_clearAllDrawn_then_export_witness :
  List.length (Registry.drawnLayers Demo.registry_drawn) = 2
  /\ Registry.drawnLayers (snd (fst (Registry.clearAllDrawn
                                       Demo.registry_drawn))) = [].
Proof.
  split; [reflexivity |].
  apply (registry_clearAllDrawn_then_export Demo.registry_drawn 1).
  - reflexivity.
  - discriminate.
Defined.

Lemma registry_second_miniMap_leaks_witness :
  let s1 := snd (fst (Registry.addMiniMap "tiles" VUndefined
                        Demo.registry_ready)) in
  let s2 := snd (fst (Registry.addMiniMap "tiles" VUndefined s1)) in
  let s3 := snd (fst (Registry.removeMiniMap s2)) in
  option_map controls (Registry.map s3) = Some [2]
  /\ Registry.miniMapControl s3 = None.
Proof.
  cbv zeta.
  destruct (registry_second_miniMap_leaks "tiles" VUndefined
              (snd (fst (Registry.addMiniMap "tiles" VUndefined
                           Demo.registry_ready)))
              {| container := "map"; layers := [0]; controls := [2];
                 handlers := [];
                 current_view := Some (ViewAt Demo.zero Demo.zero Demo.ten) |}
              {| cid := 2; ckind := MiniMapControl;
                 cconfig := [("width"%string, VNum 150%float);
                             ("height"%string, VNum 150%float);
                             ("position"%string, VStr "bottomright");
                             ("toggleDisplay"%string, VBool true);
                             ("zoomLevelOffset"%string, VNum (-5)%float)];
                 cgroup := None; cminimized := false |})
    as (m2 & Hmap & _ & Hnone & _).
  - reflexivity.
  - reflexivity.
  - discriminate.
  - reflexivity.
  - reflexivity.
  - cbv. repeat constructor.
  - split; [reflexivity | exact Hnone].
Defined.

Lemma addCircle_style_witness :
  exists s' l style,
    Wrapper.addCircle Demo.zero Demo.zero Demo.ten
      (VObj 9 [("fillOpacity"%string, VNum 0%float)]) Demo.wrapper_ready
    = (Returned (RetHandle 4), s', [])
    /\ find_layer 4 (heap (Wrapper.page s')) = Some l
    /\ lopts l = VObj 0 style
    /\ lookup "fillOpacity" style = VNum 0%float.
Proof.
  destruct (addCircle_style Demo.zero Demo.zero Demo.ten 9
              [("fillOpacity"%string, VNum 0%float)] Demo.wrapper_ready
              Demo.ready_map "fillOpacity")
    as (s' & l & style & Hrun & Hfind & Hopts & Hk).
  - reflexivity.
  - below.
  - repeat constructor. intros [].
  - exists s', l, style. repeat split; assumption.
Defined.

Lemma addStructure_style_witness :
  exists s' l style,
    Wrapper.addStructure Demo.zero (VStr "green") VUndefined
      (VObj 9 [("color"%string, VStr "black")]) Demo.wrapper_ready
    = (Returned (RetHandle 4), s', [])
    /\ find_layer 4 (heap (Wrapper.page s')) = Some l
    /\ lopts l = VObj 0 style
    /\ lookup "color" style = VStr "black".
Proof.
  destruct (addStructure_style Demo.zero (VStr "green") VUndefined 9
              [("color"%string, VStr "black")] Demo.wrapper_ready
              Demo.ready_map "color")
    as (s' & l & style & Hrun & Hfind & _ & Hopts & Hk).
  - reflexivity.
  - below.
  - repeat constructor. intros [].
  - exists s', l, style. repeat split; assumption.
Defined.


Lemma setMapType_switches_witness :
  let s1 := snd (fst (Wrapper.setMapType "satellite" Demo.wrapper_ready)) in
  let s2 := snd (fst (Wrapper.setMapType "osm" s1)) in
  exists m1 m2,
    Wrapper.map s1 = Some m1 /\ Wrapper.map s2 = Some m2
    /\ mem 2 (layers m1) = true /\ mem 1 (layers m2) = true.
Proof.
  cbv zeta.
  destruct (setMapType_switches Demo.wrapper_ready Demo.ready_map 1 2)
    as (m1 & m2 & H1 & H2 & _ & _ & _ & Hsat & Hosm & _).
  - reflexivity.
  - reflexivity.
  - reflexivity.
  - reflexivity.
  - discriminate.
  - exists m1, m2. repeat split; assumption.
Defined.

Lemma setMapType_unknown_blanks_witness :
  exists s',
    Wrapper.setMapType "terrain" Demo.wrapper_ready
    = (Returned RetUndefined, s', [])
    /\ option_map layers (Wrapper.map s') = Some [].
Proof.
  destruct (setMapType_unknown_blanks "terrain" Demo.wrapper_ready
              Demo.ready_map 1 eq_refl eq_refl eq_refl eq_refl)
    as (s' & Hrun & Hmap & _).
  exists s'. split; [exact Hrun |]. rewrite Hmap. reflexivity.
Defined.

Lemma drawing_toggle_witness :
  option_map controls
    (Wrapper.map (snd (fst (Wrapper.disableDrawing Demo.wrapper_tools))))
  = Some [3]
  /\ option_map controls
       (Wrapper.map
          (snd (fst (Wrapper.enableDrawing
                       (snd (fst (Wrapper.disableDrawing
                                    Demo.wrapper_tools)))))))
     = Some [3; 5].
Proof.
  destruct (drawing_toggle Demo.wrapper_tools Demo.tools_map Demo.tools_control
              eq_refl eq_refl eq_refl)
    as (_ & _ & _ & Hoff & _ & Hon & _).
  split; [exact Hoff | exact Hon].
Defined.

Lemma wrapper_reinit_replaces_tools_witness :
  exists s',
    Wrapper.initDrawTools VUndefined VUndefined VUndefined Demo.wrapper_drawn
    = (Returned RetUndefined, s', [])
    /\ Wrapper.drawnLayers s' = []
    /\ List.length (Wrapper.drawnLayers Demo.wrapper_drawn) = 2.
Proof.
  destruct (wrapper_reinit_replaces_tools VUndefined VUndefined VUndefined
              Demo.wrapper_drawn Demo.tools_map Demo.tools_control)
    as (s' & m' & ctl' & Hrun & _ & _ & _ & _ & _ & Hempty & _).
  - reflexivity.
  - reflexivity.
  - below.
  - reflexivity.
  - cbv. repeat constructor.
  - cbv. repeat constructor.
  - exists s'. split; [exact Hrun |]. split; [exact Hempty | reflexivity].
Defined.

Lemma wrapper_addMiniMap_replaces_witness :
  exists s1 m1 ctl,
    Wrapper.addMiniMap None VUndefined
      (snd (fst (Wrapper.addMiniMap None VUndefined Demo.wrapper_ready)))
    = (Returned (RetHandle (cid ctl)), s1, [])
    /\ Wrapper.map s1 = Some m1
    /\ mem 5 (controls m1) = false.
Proof.
  destruct (wrapper_addMiniMap_replaces None VUndefined
              (snd (fst (Wrapper.addMiniMap None VUndefined
                           Demo.wrapper_ready)))
              {| container := "map"; layers := [1]; controls := [3; 5];
                 handlers := [];
                 current_view := Some (ViewAt Demo.zero Demo.zero Demo.ten) |}
              {| cid := 5; ckind := MiniMapControl;
                 cconfig := Wrapper.miniMapDefaults; cgroup := None;
                 cminimized := false |})
    as (s1 & m1 & ctl & Hrun & Hmap & _ & Hold & _).
  - reflexivity.
  - reflexivity.
  - reflexivity.
  - cbv. repeat constructor.
  - exists s1, m1, ctl. split; [exact Hrun |]. split; [exact Hmap | exact Hold].
Defined.

Lemma popupContent_without_placeholders_witness :
  @Wrapper.popupContent Demo.runtime (VStr "Owner: {owner}")
    [("name"%string, VStr "Bob")]
  = Returned (VStr "Owner: {owner}").
Proof.
  apply (@popupContent_without_placeholders Demo.runtime).
  constructor; [| constructor].
  intros k. do 15 (destruct k as [| k]; [reflexivity |]). reflexivity.
Defined.

Lemma popupContent_dollar_patterns_witness :
  @Wrapper.popupContent Demo.runtime (VStr "Cost {c}")
    [("c"%string, VStr "$$")]
  = Returned (VStr "Cost $").
Proof.
  apply (proj2 (@popupContent_dollar_patterns Demo.runtime "Cost " "" "c"
                  ltac:(intros k Hk;
                        do 5 (destruct k as [| k]; [reflexivity |]);
                        simpl in Hk; lia))).
Defined.
